(** * NanoboyAdvance audio: the noise channel and the APU mixer

    A shallow embedding of [NoiseChannel] (channel_noise.cpp) and of the
    mixer tick and host callback of [APU] (apu.cpp), followed by the
    properties of the design document that concern them.

    Conventions.
    - An [int] is a [Z].  Where a value coming from outside enters [int]
      arithmetic ([cycles_late], [byte_len]) the two's complement
      wrap-around [int32] is written out; all other [int] arithmetic stays
      far inside the 32-bit range on well-formed states
      ([NoiseChannel.wf], kept by every method).
    - [std::uint8_t] and [std::uint16_t] stores are reduced with [u8], [u16].
    - [float] is IEEE binary32, computed by the standard library's
      [SpecFloat].
    - A method that mutates the object is a function from the state to the
      new state; a method that returns a value returns it with the state.
    - Collaborators held by reference ([Scheduler&], [BIAS&]) are fields of
      the record that models the object; a collaborator that is only
      called is recorded by the calls made to it.
    - Declarations that the sources at hand use but do not contain are
      modelled from the design document and marked as such, or taken as
      parameters where the document is silent. *)

From Stdlib Require Import ZArith List Bool Lia QArith SpecFloat Lqa.
Import ListNotations.
Close Scope Q_scope.
Open Scope Z_scope.

(** ** Fixed-width integers *)

Definition u8 (z : Z) : Z := z mod 256.
Definition u16 (z : Z) : Z := z mod 65536.
Definition int32 (z : Z) : Z := (z + 2147483648) mod 4294967296 - 2147483648.
Definition INT_MAX : Z := 2147483647.

#[global] Arguments u8 : simpl never.
#[global] Arguments u16 : simpl never.
#[global] Arguments int32 : simpl never.

(** [bool(x)] of an integer, as in [if (x)] and in an assignment to a [bool]. *)
Definition truthy (z : Z) : bool := negb (z =? 0).

(** ** Collaborators of the channel *)

Module Scheduler.
(** The only callback the channel ever registers. *)
Inductive Callback : Type := event_cb.

Record Event : Type := { delay : Z; callback : Callback }.

(** The scheduler is seen through the calls made to it: the pending
    submissions, oldest first. *)
Definition t : Type := list Event.

Definition Add (delay_cycles : Z) (cb : Callback) (s : t) : t :=
  s ++ [ {| delay := delay_cycles; callback := cb |} ].
End Scheduler.

Module BIAS.
Record t : Type := { resolution : Z }.

(** Modelled from the spec: the declaration of [BIAS] is not part of the
    sources at hand.  The mixer's per-tick cycle period is
    [512 >> resolution]. *)
Definition GetSampleInterval (b : t) : Z := Z.shiftr 512 (resolution b).

Definition wf (b : t) : bool := (0 <=? resolution b) && (resolution b <=? 3).
End BIAS.

Module Envelope.
Record t : Type :=
  { enabled : bool;
    active : bool;
    divider : Z;
    direction : Z;  (* the integer value of the [Direction] enumerator *)
    initial_volume : Z;
    current_volume : Z }.

Definition wf (e : t) : bool :=
  (0 <=? divider e) && (divider e <=? 7) &&
  (0 <=? direction e) && (direction e <=? 1) &&
  (0 <=? initial_volume e) && (initial_volume e <=? 15) &&
  (0 <=? current_volume e) && (current_volume e <=? 15).
End Envelope.

Module Sweep.
Record t : Type := { enabled : bool; active : bool }.
End Sweep.

Module Sequencer.
Record t : Type :=
  { length : Z;
    length_max : Z;  (* static configuration of the owning channel *)
    envelope : Envelope.t;
    sweep : Sweep.t }.

(** Modelled from the spec: the sequencer is not part of the sources at
    hand.  [Reset] zeroes the length and disables the active envelope and
    sweep state; which sub-units are enabled is static configuration. *)
Definition Reset (s : t) : t :=
  let e := envelope s in
  let w := sweep s in
  {| length := 0;
     length_max := length_max s;
     envelope :=
       {| Envelope.enabled := Envelope.enabled e;
          Envelope.active := false;
          Envelope.divider := Envelope.divider e;
          Envelope.direction := Envelope.direction e;
          Envelope.initial_volume := Envelope.initial_volume e;
          Envelope.current_volume := Envelope.current_volume e |};
     sweep := {| Sweep.enabled := Sweep.enabled w; Sweep.active := false |} |}.

(** Modelled from the spec: [Restart] reloads the length to its maximum
    if it is currently zero, reloads [current_volume] from
    [initial_volume] and marks the envelope active. *)
Definition Restart (s : t) : t :=
  let e := envelope s in
  {| length := if length s =? 0 then length_max s else length s;
     length_max := length_max s;
     envelope :=
       {| Envelope.enabled := Envelope.enabled e;
          Envelope.active := true;
          Envelope.divider := Envelope.divider e;
          Envelope.direction := Envelope.direction e;
          Envelope.initial_volume := Envelope.initial_volume e;
          Envelope.current_volume := Envelope.initial_volume e |};
     sweep := sweep s |}.

Definition with_length (l : Z) (s : t) : t :=
  {| length := l; length_max := length_max s;
     envelope := envelope s; sweep := sweep s |}.

Definition with_envelope (e : Envelope.t) (s : t) : t :=
  {| length := length s; length_max := length_max s;
     envelope := e; sweep := sweep s |}.
End Sequencer.

(** ** The noise channel *)

Module NoiseChannel.

Record t : Type :=
  { scheduler : Scheduler.t;
    bias : BIAS.t;
    sequencer : Sequencer.t;
    frequency_shift : Z;
    frequency_ratio : Z;
    width : Z;
    length_enable : bool;
    dac_enable : bool;
    enabled : bool;
    lfsr : Z;
    sample : Z;
    skip_count : Z }.

(** Modelled from the spec: [GetSynthesisInterval] lives in the missing
    header.  It is [divisor_table[ratio] << shift] cycles per generation
    step, with [divisor_table = {8,16,32,48,64,80,96,112}]. *)
Definition divisor_table : list Z := [8; 16; 32; 48; 64; 80; 96; 112].

Definition GetSynthesisInterval (ratio shift : Z) : Z :=
  Z.shiftl (nth (Z.to_nat ratio) divisor_table 0) shift.

#[global] Arguments GetSynthesisInterval : simpl never.

(** The ranges every field keeps on the states the methods produce. *)
Definition wf (c : t) : bool :=
  BIAS.wf (bias c) &&
  Envelope.wf (Sequencer.envelope (sequencer c)) &&
  (0 <=? frequency_shift c) && (frequency_shift c <=? 15) &&
  (0 <=? frequency_ratio c) && (frequency_ratio c <=? 7) &&
  (0 <=? width c) && (width c <=? 1) &&
  (0 <=? lfsr c) && (lfsr c <? 65536) &&
  (0 <=? skip_count c) && (skip_count c <? 64).

Definition Reset (c : t) : t :=
  {| scheduler :=
       Scheduler.Add (GetSynthesisInterval 7 15) Scheduler.event_cb (scheduler c);
     bias := bias c;
     sequencer := Sequencer.Reset (sequencer c);
     frequency_shift := 0;
     frequency_ratio := 0;
     width := 0;
     length_enable := false;
     dac_enable := false;
     enabled := false;
     lfsr := 0;
     sample := 0;
     skip_count := 0 |}.

(** [constexpr std::uint16_t lfsr_xor[2] = { 0x6000, 0x60 }] *)
Definition lfsr_xor : list Z := [0x6000; 0x60].

(** One pass through the body of the skip loop:
    [carry = lfsr & 1; lfsr >>= 1; if (carry) lfsr ^= lfsr_xor[width];] *)
Definition skip_body (width lfsr : Z) : Z :=
  let carry := Z.land lfsr 1 in
  let lfsr := u16 (Z.shiftr lfsr 1) in
  if truthy carry
  then u16 (Z.lxor lfsr (nth (Z.to_nat width) lfsr_xor 0))
  else lfsr.

(** [for (int i = 0; i < skip_count; i++) { ... }], by the number of
    iterations left. *)
Fixpoint skip_loop (n : nat) (width lfsr : Z) : Z :=
  match n with
  | O => lfsr
  | S k => skip_loop k width (skip_body width lfsr)
  end.

Definition Generate (cycles_late : Z) (c : t) : t :=
  if length_enable c && (Sequencer.length (sequencer c) <=? 0) then
    {| scheduler :=
         Scheduler.Add (int32 (GetSynthesisInterval 7 15 - cycles_late))
                       Scheduler.event_cb (scheduler c);
       bias := bias c;
       sequencer := sequencer c;
       frequency_shift := frequency_shift c;
       frequency_ratio := frequency_ratio c;
       width := width c;
       length_enable := length_enable c;
       dac_enable := dac_enable c;
       enabled := false;
       lfsr := lfsr c;
       sample := 0;
       skip_count := skip_count c |}
  else
    let carry := Z.land (lfsr c) 1 in
    let lfsr1 := u16 (Z.shiftr (lfsr c) 1) in
    let '(lfsr2, sample1) :=
      if truthy carry
      then (u16 (Z.lxor lfsr1 (nth (Z.to_nat (width c)) lfsr_xor 0)), 8)
      else (lfsr1, -8) in
    let sample2 :=
      sample1 * Envelope.current_volume (Sequencer.envelope (sequencer c)) in
    let sample3 := if negb (dac_enable c) then 0 else sample2 in
    let lfsr3 := skip_loop (Z.to_nat (skip_count c)) (width c) lfsr2 in
    let noise_interval :=
      GetSynthesisInterval (frequency_ratio c) (frequency_shift c) in
    let mixer_interval := BIAS.GetSampleInterval (bias c) in
    let '(skip_count', noise_interval') :=
      if noise_interval <? mixer_interval
      then (Z.quot mixer_interval noise_interval - 1, mixer_interval)
      else (0, noise_interval) in
    {| scheduler :=
         Scheduler.Add (int32 (noise_interval' - cycles_late))
                       Scheduler.event_cb (scheduler c);
       bias := bias c;
       sequencer := sequencer c;
       frequency_shift := frequency_shift c;
       frequency_ratio := frequency_ratio c;
       width := width c;
       length_enable := length_enable c;
       dac_enable := dac_enable c;
       enabled := enabled c;
       lfsr := lfsr3;
       sample := sample3;
       skip_count := skip_count' |}.

Definition Read (offset : Z) (c : t) : Z * t :=
  let envelope := Sequencer.envelope (sequencer c) in
  match offset with
  | 0 => (0, c)
  | 1 =>
      (u8 (Z.lor (Z.lor (Envelope.divider envelope)
                        (Z.shiftl (Envelope.direction envelope) 3))
                 (Z.shiftl (Envelope.initial_volume envelope) 4)), c)
  | 2 | 3 => (0, c)
  | 4 =>
      (u8 (Z.lor (Z.lor (frequency_ratio c) (Z.shiftl (width c) 3))
                 (Z.shiftl (frequency_shift c) 4)), c)
  | 5 => (if length_enable c then 0x40 else 0, c)
  | _ => (0, c)
  end.

(** [constexpr std::uint16_t lfsr_init[] = { 0x4000, 0x0040 }] *)
Definition lfsr_init : list Z := [0x4000; 0x0040].

Section Write.
(** The integer value of the enumerator [Envelope::Direction::Decrement];
    the enumeration is declared in the missing sequencer header. *)
Variable Decrement : Z.

Definition Write (offset value : Z) (c : t) : t :=
  let envelope := Sequencer.envelope (sequencer c) in
  match offset with
  | 0 =>
      {| scheduler := scheduler c;
         bias := bias c;
         sequencer :=
           Sequencer.with_length (64 - Z.land value 63) (sequencer c);
         frequency_shift := frequency_shift c;
         frequency_ratio := frequency_ratio c;
         width := width c;
         length_enable := length_enable c;
         dac_enable := dac_enable c;
         enabled := enabled c;
         lfsr := lfsr c;
         sample := sample c;
         skip_count := skip_count c |}
  | 1 =>
      let divider_old := Envelope.divider envelope in
      let direction_old := Envelope.direction envelope in
      let divider := Z.land value 7 in
      let direction := Z.land (Z.shiftr value 3) 1 in
      let initial_volume := Z.shiftr value 4 in
      let dac_enable' := negb (Z.shiftr value 3 =? 0) in
      let enabled' := if negb dac_enable' then false else enabled c in
      let volume := Envelope.current_volume envelope in
      let volume1 :=
        if (divider_old =? 0) && Envelope.active envelope then volume + 1
        else if direction_old =? Decrement then volume + 2
        else volume in
      let volume2 :=
        if negb (direction_old =? direction) then 16 - volume1
        else volume1 in
      let volume3 := Z.land volume2 15 in
      {| scheduler := scheduler c;
         bias := bias c;
         sequencer :=
           Sequencer.with_envelope
             {| Envelope.enabled := Envelope.enabled envelope;
                Envelope.active := Envelope.active envelope;
                Envelope.divider := divider;
                Envelope.direction := direction;
                Envelope.initial_volume := initial_volume;
                Envelope.current_volume := volume3 |}
             (sequencer c);
         frequency_shift := frequency_shift c;
         frequency_ratio := frequency_ratio c;
         width := width c;
         length_enable := length_enable c;
         dac_enable := dac_enable';
         enabled := enabled';
         lfsr := lfsr c;
         sample := sample c;
         skip_count := skip_count c |}
  | 4 =>
      {| scheduler := scheduler c;
         bias := bias c;
         sequencer := sequencer c;
         frequency_shift := Z.shiftr value 4;
         frequency_ratio := Z.land value 7;
         width := Z.land (Z.shiftr value 3) 1;
         length_enable := length_enable c;
         dac_enable := dac_enable c;
         enabled := enabled c;
         lfsr := lfsr c;
         sample := sample c;
         skip_count := skip_count c |}
  | 5 =>
      let length_enable' := truthy (Z.land value 0x40) in
      if truthy (Z.land value 0x80) then
        {| scheduler := scheduler c;
           bias := bias c;
           sequencer := Sequencer.Restart (sequencer c);
           frequency_shift := frequency_shift c;
           frequency_ratio := frequency_ratio c;
           width := width c;
           length_enable := length_enable';
           dac_enable := dac_enable c;
           enabled := if dac_enable c then true else enabled c;
           lfsr := nth (Z.to_nat (width c)) lfsr_init 0;
           sample := sample c;
           skip_count := skip_count c |}
      else
        {| scheduler := scheduler c;
           bias := bias c;
           sequencer := sequencer c;
           frequency_shift := frequency_shift c;
           frequency_ratio := frequency_ratio c;
           width := width c;
           length_enable := length_enable';
           dac_enable := dac_enable c;
           enabled := enabled c;
           lfsr := lfsr c;
           sample := sample c;
           skip_count := skip_count c |}
  | _ => c
  end.
End Write.

End NoiseChannel.

(** ** The APU: mixer tick and host callback *)

(** Single-precision arithmetic ([float], IEEE binary32), by the reference
    implementation of the standard library. *)
Module Float.
Definition prec : Z := 24.
Definition emax : Z := 128.

Definition t : Type := spec_float.

(** Conversion of an [int] operand, as in [latch[0]/256.0f]. *)
Definition of_int (z : Z) : t := binary_normalize prec emax z 0 false.
Definition div (x y : t) : t := SFdiv prec emax x y.
Definition add (x y : t) : t := SFadd prec emax x y.

Definition is_finite (x : t) : bool :=
  match x with
  | S754_zero _ | S754_finite _ _ _ => true
  | _ => false
  end.

(** The rational a finite float denotes. *)
Definition to_Q (x : t) : Q :=
  match x with
  | S754_finite s m e =>
      let n := if s then Z.neg m else Z.pos m in
      match e with
      | Z0 => inject_Z n
      | Z.pos p => inject_Z (n * Z.pow_pos 2 p)
      | Z.neg p => Qmake n (Pos.pow 2 p)
      end
  | _ => 0%Q
  end.

(** [x] is finite and denotes exactly [q]. *)
Definition denotes (x : t) (q : Q) : Prop :=
  is_finite x = true /\ Qeq (to_Q x) q.
End Float.

(** [DSP::StereoSample<float>] *)
Module StereoSample.
Record t : Type := { left : Float.t; right : Float.t }.
End StereoSample.

Module Resampler.
(** The resampler is seen through the calls made to it: its configured
    rates and the frames written into it, oldest first. *)
Record t : Type :=
  { input_rate : Z;
    output_rate : Z;
    written : list StereoSample.t }.

Definition SetSampleRates (rate_in rate_out : Z) (r : t) : t :=
  {| input_rate := rate_in; output_rate := rate_out; written := written r |}.

Definition Write (f : StereoSample.t) (r : t) : t :=
  {| input_rate := input_rate r; output_rate := output_rate r;
     written := written r ++ [f] |}.
End Resampler.

Module RingBuffer.
Section RingBuffer.
Context {T : Type}.
(** What a slot outside the held frames reads as. *)
Variable stale : T.

(** Modelled from the spec: [DSP::StereoRingBuffer] is not part of the
    sources at hand.  The buffer holds finished frames, oldest first;
    [Available] counts them, [Read] removes the oldest one and [Peek]
    looks at the frame [offset] places behind the oldest without
    consuming anything. *)
Definition t : Type := list T.

Definition Available (b : t) : Z := Z.of_nat (List.length b).

Definition Read (b : t) : T * t :=
  match b with
  | [] => (stale, [])
  | f :: rest => (f, rest)
  end.

Definition Peek (offset : Z) (b : t) : T := nth (Z.to_nat offset) b stale.
End RingBuffer.
End RingBuffer.

Module APU.

(** A tone channel as the mixer sees it. *)
Record Channel : Type := { sample : Z }.

Record t : Type :=
  { latch : list Z;           (* std::int8_t latch[2] *)
    psg1 : Channel;
    psg2 : Channel;
    psg3 : Channel;
    bias : BIAS.t;            (* mmio.bias *)
    resolution_old : Z;
    countdown : Z;            (* event.countdown *)
    audio_dev_rate : Z;       (* cpu->config->audio_dev->GetSampleRate() *)
    resampler : Resampler.t;
    buffer : @RingBuffer.t StereoSample.t }.

Definition int8 (z : Z) : bool := (-128 <=? z) && (z <=? 127).

Definition wf (a : t) : bool :=
  BIAS.wf (bias a) &&
  Nat.eqb (List.length (latch a)) 2 &&
  forallb int8 (latch a) &&
  int8 (sample (psg1 a)) && int8 (sample (psg2 a)) && int8 (sample (psg3 a)).

(** The expression
    [latch[id]/256.0f + (psg1.sample + psg2.sample + psg3.sample)/512.0f]. *)
Definition mix (latch_id psg_sum : Z) : Float.t :=
  Float.add (Float.div (Float.of_int latch_id) (Float.of_int 256))
            (Float.div (Float.of_int psg_sum) (Float.of_int 512)).

Definition Tick (a : t) : t :=
  let resolution := BIAS.resolution (bias a) in
  let changed := negb (resolution =? resolution_old a) in
  let resampler1 :=
    if changed
    then Resampler.SetSampleRates (Z.shiftl 32768 resolution)
                                  (audio_dev_rate a) (resampler a)
    else resampler a in
  let resolution_old' := if changed then resolution else resolution_old a in
  let psg_sum := sample (psg1 a) + sample (psg2 a) + sample (psg3 a) in
  let frame :=
    {| StereoSample.left := mix (nth 0 (latch a) 0) psg_sum;
       StereoSample.right := mix (nth 1 (latch a) 0) psg_sum |} in
  {| latch := latch a;
     psg1 := psg1 a;
     psg2 := psg2 a;
     psg3 := psg3 a;
     bias := bias a;
     resolution_old := resolution_old';
     countdown := countdown a + Z.shiftr 512 resolution;
     audio_dev_rate := audio_dev_rate a;
     resampler := Resampler.Write frame resampler1;
     buffer := buffer a |}.

Section AudioCallback.
(** [StereoSample::operator*] applied to [32767.0] and the conversion
    [std::int16_t(std::round(x))] of one component; neither the class
    nor the host's rounding is part of the sources at hand. *)
Variable scale : StereoSample.t -> StereoSample.t.
Variable to_int16 : Float.t -> Z.
Variable stale : StereoSample.t.

Definition Buffer : Type := @RingBuffer.t StereoSample.t.

(** The two values stored at [stream[x*2+0]] and [stream[x*2+1]]. *)
Definition store (sample : StereoSample.t) : Z * Z :=
  (to_int16 (StereoSample.left sample), to_int16 (StereoSample.right sample)).

(** [for (x = 0; x < samples; x++)] of the first branch, by the number
    of iterations left; returns the pairs stored, in the order of [x]. *)
Fixpoint drain (n : nat) (b : Buffer) : list (Z * Z) * Buffer :=
  match n with
  | O => ([], b)
  | S k =>
      let '(f, b1) := RingBuffer.Read stale b in
      let sample := scale f in
      let '(out, b2) := drain k b1 in
      (store sample :: out, b2)
  end.

(** The loop of the second branch; [y] is carried from one iteration
    to the next. *)
Fixpoint replay (n : nat) (y available : Z) (b : Buffer) : list (Z * Z) :=
  match n with
  | O => []
  | S k =>
      let sample := scale (RingBuffer.Peek stale y b) in
      let y1 := y + 1 in
      let y2 := if y1 =? available then 0 else y1 in
      store sample :: replay k y2 available b
  end.

(** [AudioCallback(apu, stream, byte_len)]: the pairs stored into
    [stream], pair [x] at [stream[2x]] and [stream[2x+1]], and the
    buffer afterwards.  [byte_len/sizeof(std::int16_t)] is an unsigned
    64-bit division whose result is converted back to [int]. *)
Definition AudioCallback (b : Buffer) (byte_len : Z) : list (Z * Z) * Buffer :=
  let samples := int32 ((byte_len mod 2 ^ 64) / 2 / 2) in
  let available := RingBuffer.Available b in
  if int32 (2 * samples) <=? available
  then drain (Z.to_nat samples) b
  else (replay (Z.to_nat samples) 0 available b, b).
End AudioCallback.

End APU.

(** ** Calls from outside and runs of them *)

Module Calls.
(** The public methods of the channel, as the bus and the scheduler call
    them. *)
Inductive Call : Type :=
| CallReset
| CallGenerate (cycles_late : Z)
| CallRead (offset : Z)
| CallWrite (offset value : Z).

(** The bus only ever passes a byte to [Write]. *)
Definition byte_args (k : Call) : bool :=
  match k with
  | CallWrite _ value => (0 <=? value) && (value <? 256)
  | _ => true
  end.

Section Run.
Variable Decrement : Z.

Definition call (k : Call) (c : NoiseChannel.t) : NoiseChannel.t :=
  match k with
  | CallReset => NoiseChannel.Reset c
  | CallGenerate cycles_late => NoiseChannel.Generate cycles_late c
  | CallRead offset => snd (NoiseChannel.Read offset c)
  | CallWrite offset value => NoiseChannel.Write Decrement offset value c
  end.

Definition run (ks : list Call) (c : NoiseChannel.t) : NoiseChannel.t :=
  fold_left (fun c k => call k c) ks c.
End Run.
End Calls.

(** The integers [lo], [lo + 1], ..., [lo + n - 1]. *)
Definition range (lo : Z) (n : nat) : list Z :=
  map (fun i => lo + Z.of_nat i) (seq 0 n).

(** ** Reference definitions used in the statements *)

Module Reference.
(** One raw step of the generator in the words of the design document:
    bit 0 is the carry, the register is shifted right by one, and the
    width-selected tap mask is XORed in when the carry was set. *)
Definition tap_mask (width : Z) : Z := if width =? 0 then 0x6000 else 0x0060.

Definition lfsr_step (width lfsr : Z) : Z :=
  let shifted := Z.shiftr lfsr 1 in
  if Z.testbit lfsr 0 then Z.lxor shifted (tap_mask width) else shifted.

(** Whether the single-precision value of the mixing expression is finite
    and equal, as a rational, to [latch/256 + psg_sum/512]. *)
Definition mix_exact (latch_id psg_sum : Z) : bool :=
  let f := APU.mix latch_id psg_sum in
  Float.is_finite f &&
  Qeq_bool (Float.to_Q f) (inject_Z latch_id / 256 + inject_Z psg_sum / 512)%Q.

(** [NoiseChannel.wf], spelled out. *)
Definition ranges (c : NoiseChannel.t) : Prop :=
  BIAS.wf (NoiseChannel.bias c) = true /\
  Envelope.wf (Sequencer.envelope (NoiseChannel.sequencer c)) = true /\
  0 <= NoiseChannel.frequency_shift c <= 15 /\
  0 <= NoiseChannel.frequency_ratio c <= 7 /\
  0 <= NoiseChannel.width c <= 1 /\
  0 <= NoiseChannel.lfsr c < 65536 /\
  0 <= NoiseChannel.skip_count c < 64.

(** The condition under which [Generate] returns early: the length gate
    silences the channel. *)
Definition silenced (c : NoiseChannel.t) : bool :=
  NoiseChannel.length_enable c &&
  (Sequencer.length (NoiseChannel.sequencer c) <=? 0).
End Reference.

(** ** Concrete states on which the statements are exercised *)

Module Examples.
Definition envelope0 : Envelope.t :=
  {| Envelope.enabled := true;
     Envelope.active := true;
     Envelope.divider := 0;
     Envelope.direction := 0;
     Envelope.initial_volume := 5;
     Envelope.current_volume := 5 |}.

Definition sequencer0 : Sequencer.t :=
  {| Sequencer.length := 10;
     Sequencer.length_max := 64;
     Sequencer.envelope := envelope0;
     Sequencer.sweep := {| Sweep.enabled := false; Sweep.active := false |} |}.

(** A triggered 15-bit channel at ratio 1, shift 2 (64 cycles per step)
    under a 512-cycle mixer. *)
Definition channel0 : NoiseChannel.t :=
  {| NoiseChannel.scheduler := [];
     NoiseChannel.bias := {| BIAS.resolution := 0 |};
     NoiseChannel.sequencer := sequencer0;
     NoiseChannel.frequency_shift := 2;
     NoiseChannel.frequency_ratio := 1;
     NoiseChannel.width := 0;
     NoiseChannel.length_enable := false;
     NoiseChannel.dac_enable := true;
     NoiseChannel.enabled := true;
     NoiseChannel.lfsr := 0x4001;
     NoiseChannel.sample := 0;
     NoiseChannel.skip_count := 7 |}.

(** The same channel with the length counter enabled and expired. *)
Definition expired0 : NoiseChannel.t :=
  {| NoiseChannel.scheduler := [];
     NoiseChannel.bias := {| BIAS.resolution := 0 |};
     NoiseChannel.sequencer := Sequencer.with_length 0 sequencer0;
     NoiseChannel.frequency_shift := 2;
     NoiseChannel.frequency_ratio := 1;
     NoiseChannel.width := 0;
     NoiseChannel.length_enable := true;
     NoiseChannel.dac_enable := true;
     NoiseChannel.enabled := true;
     NoiseChannel.lfsr := 0x4001;
     NoiseChannel.sample := 40;
     NoiseChannel.skip_count := 7 |}.

(** The first channel with its DAC switched off. *)
Definition muted0 : NoiseChannel.t :=
  {| NoiseChannel.scheduler := [];
     NoiseChannel.bias := {| BIAS.resolution := 0 |};
     NoiseChannel.sequencer := sequencer0;
     NoiseChannel.frequency_shift := 2;
     NoiseChannel.frequency_ratio := 1;
     NoiseChannel.width := 0;
     NoiseChannel.length_enable := false;
     NoiseChannel.dac_enable := false;
     NoiseChannel.enabled := false;
     NoiseChannel.lfsr := 0x4001;
     NoiseChannel.sample := 0;
     NoiseChannel.skip_count := 7 |}.

(** A bus trace: set the envelope, trigger, fire twice, read back. *)
Definition trace0 : list Calls.Call :=
  [ Calls.CallWrite 1 0xF3; Calls.CallWrite 4 0x1A; Calls.CallWrite 5 0x80;
    Calls.CallGenerate 0; Calls.CallGenerate 2; Calls.CallRead 1;
    Calls.CallWrite 1 0x08; Calls.CallReset ].

(** A mixer with silent latches and the first tone channel at +40. *)
Definition apu0 : APU.t :=
  {| APU.latch := [0; 0];
     APU.psg1 := {| APU.sample := 40 |};
     APU.psg2 := {| APU.sample := 0 |};
     APU.psg3 := {| APU.sample := 0 |};
     APU.bias := {| BIAS.resolution := 0 |};
     APU.resolution_old := 0;
     APU.countdown := 0;
     APU.audio_dev_rate := 48000;
     APU.resampler :=
       {| Resampler.input_rate := 32768;
          Resampler.output_rate := 48000;
          Resampler.written := [] |};
     APU.buffer := [] |}.

(** Two distinguishable frames and a host conversion that keeps the
    sign of a component, for exercising the callback. *)
Definition quiet : StereoSample.t :=
  {| StereoSample.left := S754_zero false;
     StereoSample.right := S754_zero false |}.

Definition loud : StereoSample.t :=
  {| StereoSample.left := Float.of_int 1;
     StereoSample.right := Float.of_int (-1) |}.

Definition unscaled (f : StereoSample.t) : StereoSample.t := f.

Definition sign16 (x : Float.t) : Z :=
  match x with
  | S754_finite true _ _ => -32767
  | S754_finite false _ _ => 32767
  | _ => 0
  end.
End Examples.

(** ** Vocabulary for the behaviour of the channel over time *)

Module Behaviour.
(** Calls that submit an event to the scheduler. *)
Definition arms (k : Calls.Call) : bool :=
  match k with
  | Calls.CallReset | Calls.CallGenerate _ => true
  | _ => false
  end.

(** Every call but a write to offset 5 with bit 7 set. *)
Definition no_trigger (k : Calls.Call) : bool :=
  match k with
  | Calls.CallWrite 5 value => negb (Z.testbit value 7)
  | _ => true
  end.

(** Every call but [Reset] and a write to offset 4. *)
Definition keeps_width (k : Calls.Call) : bool :=
  match k with
  | Calls.CallReset => false
  | Calls.CallWrite 4 _ => false
  | _ => true
  end.

(** Every call but a write to offset 1. *)
Definition keeps_dac (k : Calls.Call) : bool :=
  match k with
  | Calls.CallWrite 1 _ => false
  | _ => true
  end.

(** The first value a register of the given width cannot hold: [2^15]
    in 15-bit mode, [2^7] in 7-bit mode. *)
Definition bound (width : Z) : Z := if width =? 0 then 32768 else 128.

(** The register is not zero and has no bit above the width in use. *)
Definition live (c : NoiseChannel.t) : bool :=
  (0 <? NoiseChannel.lfsr c) &&
  (NoiseChannel.lfsr c <? bound (NoiseChannel.width c)).

(** [P] holds of [lo], [lo + 1], ..., [lo + n - 1]. *)
Fixpoint all_from (P : Z -> bool) (lo : Z) (n : nat) : bool :=
  match n with
  | O => true
  | S k => P lo && all_from P (lo + 1) k
  end.

(** Walks the register from [lfsr], which is [steps] loop bodies away
    from [seed], and reports after how many bodies in all it first comes
    back to [seed]; gives up after [fuel] bodies. *)
Fixpoint first_return (fuel : nat) (width seed lfsr steps : Z) : option Z :=
  match fuel with
  | O => None
  | S fuel' =>
      let next := NoiseChannel.skip_body width lfsr in
      if next =? seed then Some (steps + 1)
      else first_return fuel' width seed next (steps + 1)
  end.
End Behaviour.

(** ** The FIFO latches *)

Module FIFO.
Section FIFO.
(** What a read from an empty FIFO returns. *)
Variable empty_read : Z.

(** Modelled from the spec: the FIFO class is not part of the sources at
    hand.  A FIFO is a queue of sample bytes, oldest first; [Count] is the
    number of bytes it holds and [Read] pops the oldest one. *)
Definition t : Type := list Z.

Definition Count (f : t) : Z := Z.of_nat (List.length f).

Definition Read (f : t) : Z * t :=
  match f with
  | [] => (empty_read, [])
  | x :: rest => (x, rest)
  end.
End FIFO.
End FIFO.

Module DMA.
(** The two occasions the mixer raises. *)
Inductive Occasion : Type := FIFO0 | FIFO1.

(** The controller is seen through the requests made to it, oldest
    first. *)
Definition t : Type := list Occasion.

Definition Request (o : Occasion) (d : t) : t := d ++ [o].
End DMA.

Module Latch.
(** What [LatchFIFO] touches besides the mixer itself: [mmio.fifo[2]] and
    [cpu->dma]. *)
Record Bus : Type := { fifo : list FIFO.t; dma : DMA.t }.

(** [l[i] = v] on an array. *)
Fixpoint assign {A : Type} (i : nat) (v : A) (l : list A) {struct l} : list A :=
  match l, i with
  | [], _ => []
  | _ :: rest, O => v :: rest
  | x :: rest, S j => x :: assign j v rest
  end.

Section LatchFIFO.
Variable empty_read : Z.

(** [for (int time = 0; time < times; time++) { ... }], by the number of
    iterations left, on the latches, the FIFO [mmio.fifo[id]] and the
    requests. *)
Fixpoint latch_loop (n : nat) (id : Z) (latch : list Z) (f : FIFO.t)
         (d : DMA.t) : list Z * FIFO.t * DMA.t :=
  match n with
  | O => (latch, f, d)
  | S k =>
      let '(v, f1) := FIFO.Read empty_read f in
      let latch1 := assign (Z.to_nat id) v latch in
      let d1 :=
        if FIFO.Count f1 <=? 16
        then DMA.Request (if id =? 0 then DMA.FIFO0 else DMA.FIFO1) d
        else d in
      latch_loop k id latch1 f1 d1
  end.

Definition LatchFIFO (id times : Z) (a : APU.t) (m : Bus) : APU.t * Bus :=
  let f := nth (Z.to_nat id) (fifo m) [] in
  let '(latch', f', d') :=
    latch_loop (Z.to_nat times) id (APU.latch a) f (dma m) in
  ({| APU.latch := latch';
      APU.psg1 := APU.psg1 a;
      APU.psg2 := APU.psg2 a;
      APU.psg3 := APU.psg3 a;
      APU.bias := APU.bias a;
      APU.resolution_old := APU.resolution_old a;
      APU.countdown := APU.countdown a;
      APU.audio_dev_rate := APU.audio_dev_rate a;
      APU.resampler := APU.resampler a;
      APU.buffer := APU.buffer a |},
   {| fifo := assign (Z.to_nat id) f' (fifo m); dma := d' |}).
End LatchFIFO.

(** How many of [n] reads from a FIFO holding [count] bytes leave at most
    16 bytes behind. *)
Definition requests (n count : Z) : Z := Z.max 0 (Z.min n (n - count + 17)).
End Latch.

(** ** Further concrete inputs *)

Module Scenes.
(** Trigger with the envelope set, then one firing. *)
Definition triggered : list Calls.Call :=
  [ Calls.CallWrite 1 0xF3; Calls.CallWrite 5 0x80; Calls.CallGenerate 0 ].

(** Firings and writes with no trigger among them. *)
Definition untriggered : list Calls.Call :=
  [ Calls.CallGenerate 0; Calls.CallWrite 4 0x1A; Calls.CallWrite 5 0x40;
    Calls.CallGenerate 3 ].

(** Firings, an envelope write and reads, with the width left alone. *)
Definition playing : list Calls.Call :=
  [ Calls.CallGenerate 0; Calls.CallWrite 1 0xF3; Calls.CallGenerate 1;
    Calls.CallRead 4; Calls.CallWrite 5 0x80; Calls.CallGenerate 2 ].

(** A trigger and a firing, with no write to offset 1. *)
Definition retrigger : list Calls.Call :=
  [ Calls.CallWrite 5 0x80; Calls.CallGenerate 0; Calls.CallWrite 4 0x08 ].

(** Three bytes waiting in FIFO 0 and one in FIFO 1. *)
Definition bus0 : Latch.Bus :=
  {| Latch.fifo := [[10; -3; 7]; [1]]; Latch.dma := [] |}.

(** The mixer of [Examples.apu0] after the bias resolution went to 1. *)
Definition apu1 : APU.t :=
  {| APU.latch := [0; 0];
     APU.psg1 := {| APU.sample := 40 |};
     APU.psg2 := {| APU.sample := 0 |};
     APU.psg3 := {| APU.sample := 0 |};
     APU.bias := {| BIAS.resolution := 1 |};
     APU.resolution_old := 0;
     APU.countdown := 0;
     APU.audio_dev_rate := 48000;
     APU.resampler :=
       {| Resampler.input_rate := 32768;
          Resampler.output_rate := 48000;
          Resampler.written := [] |};
     APU.buffer := [] |}.
End Scenes.

(** * Properties *)

(** ** Arithmetic and bit-level facts *)

Lemma lxor_below (n a b : Z) :
  0 <= n -> 0 <= a < 2 ^ n -> 0 <= b < 2 ^ n -> 0 <= Z.lxor a b < 2 ^ n.
Proof.
  intros Hn Ha Hb.
  assert (Hnn : 0 <= Z.lxor a b) by (apply Z.lxor_nonneg; lia).
  split; [exact Hnn|].
  destruct (Z.eq_dec (Z.lxor a b) 0) as [E | E]; [rewrite E; lia|].
  assert (Hpos : 0 < n).
  { destruct (Z.eq_dec n 0) as [-> | Nn]; [|lia].
    change (2 ^ 0) with 1 in *.
    assert (a = 0) by lia. assert (b = 0) by lia. subst. now elim E. }
  assert (L : forall x, 0 <= x < 2 ^ n -> Z.log2 x < n).
  { intros x Hx. destruct (Z.eq_dec x 0) as [-> | Nx];
      [simpl; lia | apply Z.log2_lt_pow2; lia]. }
  apply Z.log2_lt_pow2; [lia|].
  pose proof (Z.log2_lxor a b ltac:(lia) ltac:(lia)).
  pose proof (L a Ha). pose proof (L b Hb). lia.
Qed.

Lemma truthy_land_1 (l : Z) : truthy (Z.land l 1) = Z.testbit l 0.
Proof.
  unfold truthy.
  change 1 with (Z.ones 1). rewrite Z.land_ones by lia.
  change (2 ^ 1) with 2. rewrite <- Z.bit0_mod.
  now destruct (Z.testbit l 0).
Qed.

Lemma land_bit (v n : Z) :
  0 <= n -> Z.land v (2 ^ n) = if Z.testbit v n then 2 ^ n else 0.
Proof.
  intros Hn. apply Z.bits_inj'. intros i Hi.
  rewrite Z.land_spec, Z.pow2_bits_eqb by lia.
  destruct (Z.eqb_spec n i) as [<- | Ne].
  - destruct (Z.testbit v n); simpl.
    + now rewrite Z.pow2_bits_true.
    + now rewrite Z.bits_0.
  - rewrite andb_false_r.
    destruct (Z.testbit v n).
    + rewrite Z.pow2_bits_false by lia. reflexivity.
    + now rewrite Z.bits_0.
Qed.

Lemma truthy_land_bit (v n : Z) :
  0 <= n -> truthy (Z.land v (2 ^ n)) = Z.testbit v n.
Proof.
  intros Hn. rewrite land_bit by exact Hn. unfold truthy.
  assert (0 < 2 ^ n) by (apply Z.pow_pos_nonneg; lia).
  destruct (Z.testbit v n); [|reflexivity].
  destruct (Z.eqb_spec (2 ^ n) 0); [lia | reflexivity].
Qed.

Lemma int32_small (z : Z) : -2147483648 <= z <= INT_MAX -> int32 z = z.
Proof.
  unfold int32, INT_MAX. intros H. rewrite Z.mod_small; lia.
Qed.

(** Boolean conjunctions of comparisons, turned into linear facts. *)
Ltac bool_facts :=
  repeat match goal with
         | H : _ && _ = true |- _ => apply andb_true_iff in H; destruct H
         | H : (_ <=? _) = true |- _ => apply Z.leb_le in H
         | H : (_ <? _) = true |- _ => apply Z.ltb_lt in H
         | H : (_ <=? _) = false |- _ => apply Z.leb_gt in H
         | H : (_ <? _) = false |- _ => apply Z.ltb_ge in H
         | H : (_ =? _) = true |- _ => apply Z.eqb_eq in H
         | H : (_ =? _) = false |- _ => apply Z.eqb_neq in H
         end.

Ltac bool_goal :=
  repeat match goal with
         | |- _ && _ = true => apply andb_true_iff; split
         | |- (_ <=? _) = true => apply Z.leb_le
         | |- (_ <? _) = true => apply Z.ltb_lt
         end.

Lemma range_In (lo z : Z) (n : nat) :
  lo <= z < lo + Z.of_nat n -> In z (range lo n).
Proof.
  intros H. unfold range. apply in_map_iff.
  exists (Z.to_nat (z - lo)). split; [lia|].
  apply in_seq. lia.
Qed.

Lemma forallb_range (P : Z -> bool) (lo : Z) (n : nat) :
  forallb P (range lo n) = true ->
  forall z, lo <= z < lo + Z.of_nat n -> P z = true.
Proof.
  intros H z Hz. rewrite forallb_forall in H. apply H, range_In, Hz.
Qed.

(** ** The synthesis interval and the mixer interval *)

Module IntervalFacts.
Import NoiseChannel.

Lemma divisor_bounds (ratio : Z) :
  0 <= ratio <= 7 -> 8 <= nth (Z.to_nat ratio) divisor_table 0 <= 112.
Proof.
  intros H.
  assert (C : ratio = 0 \/ ratio = 1 \/ ratio = 2 \/ ratio = 3 \/
              ratio = 4 \/ ratio = 5 \/ ratio = 6 \/ ratio = 7) by lia.
  repeat (destruct C as [-> | C]; [simpl; lia|]).
  subst ratio. simpl. lia.
Qed.

Lemma GetSynthesisInterval_bounds (ratio shift : Z) :
  0 <= ratio <= 7 -> 0 <= shift <= 15 ->
  8 <= GetSynthesisInterval ratio shift <= GetSynthesisInterval 7 15.
Proof.
  intros Hr Hs. unfold GetSynthesisInterval.
  rewrite !Z.shiftl_mul_pow2 by lia.
  pose proof (divisor_bounds ratio Hr) as Hd.
  change (nth (Z.to_nat 7) divisor_table 0) with 112.
  assert (1 <= 2 ^ shift) by (apply (Z.pow_le_mono_r 2 0 shift); lia).
  assert (2 ^ shift <= 2 ^ 15) by (apply Z.pow_le_mono_r; lia).
  nia.
Qed.

Lemma GetSynthesisInterval_slowest : GetSynthesisInterval 7 15 = 3670016.
Proof. reflexivity. Qed.

Lemma GetSampleInterval_bounds (b : BIAS.t) :
  BIAS.wf b = true -> 64 <= BIAS.GetSampleInterval b <= 512.
Proof.
  unfold BIAS.wf, BIAS.GetSampleInterval. intros H. bool_facts.
  assert (C : BIAS.resolution b = 0 \/ BIAS.resolution b = 1 \/
              BIAS.resolution b = 2 \/ BIAS.resolution b = 3) by lia.
  destruct C as [E | [E | [E | E]]]; rewrite E; vm_compute;
    split; discriminate.
Qed.
End IntervalFacts.

(** ** Well-formed channels, as linear facts *)

Module WfFacts.
Import NoiseChannel Reference.

Lemma wf_ranges (c : t) : wf c = true <-> ranges c.
Proof.
  unfold wf, ranges.
  rewrite !andb_true_iff, !Z.leb_le, !Z.ltb_lt. tauto.
Qed.

Lemma Envelope_wf_ranges (e : Envelope.t) :
  Envelope.wf e = true <->
  0 <= Envelope.divider e <= 7 /\
  0 <= Envelope.direction e <= 1 /\
  0 <= Envelope.initial_volume e <= 15 /\
  0 <= Envelope.current_volume e <= 15.
Proof.
  unfold Envelope.wf.
  rewrite !andb_true_iff, !Z.leb_le. tauto.
Qed.
End WfFacts.

(** ** The generator *)

Module LfsrFacts.
Import NoiseChannel Reference.

Lemma skip_body_step (w l : Z) :
  0 <= w <= 1 -> 0 <= l < 65536 ->
  skip_body w l = lfsr_step w l /\ 0 <= lfsr_step w l < 65536.
Proof.
  intros Hw Hl. unfold skip_body, lfsr_step, tap_mask, u16.
  rewrite truthy_land_1.
  assert (Hs : 0 <= Z.shiftr l 1 < 2 ^ 15).
  { rewrite Z.shiftr_div_pow2 by lia. change (2 ^ 1) with 2.
    change (2 ^ 15) with 32768. split.
    - apply Z.div_pos; lia.
    - apply Z.div_lt_upper_bound; lia. }
  rewrite (Z.mod_small (Z.shiftr l 1)) by (change (2 ^ 15) with 32768 in Hs; lia).
  assert (Hm : 0 <= nth (Z.to_nat w) lfsr_xor 0 < 2 ^ 15 /\
               nth (Z.to_nat w) lfsr_xor 0 = if w =? 0 then 24576 else 96).
  { assert (C : w = 0 \/ w = 1) by lia.
    destruct C as [-> | ->]; simpl; change (2 ^ 15) with 32768; lia. }
  destruct Hm as [Hm Hm'].
  pose proof (lxor_below 15 _ _ ltac:(lia) Hs Hm) as Hx.
  change (2 ^ 15) with 32768 in *.
  destruct (Z.testbit l 0).
  - rewrite Z.mod_small by lia. rewrite <- Hm'. split; [reflexivity | lia].
  - split; [reflexivity | lia].
Qed.

Lemma skip_loop_iter (n : nat) (w l : Z) :
  0 <= w <= 1 -> 0 <= l < 65536 ->
  skip_loop n w l = Nat.iter n (lfsr_step w) l /\
  0 <= Nat.iter n (lfsr_step w) l < 65536.
Proof.
  intros Hw. revert l. induction n as [| n IH]; intros l Hl.
  - simpl. split; [reflexivity | lia].
  - destruct (skip_body_step w l Hw Hl) as [E B].
    destruct (IH _ B) as [E' B'].
    rewrite Nat.iter_succ_r. simpl skip_loop. rewrite E. split; assumption.
Qed.
End LfsrFacts.

(** ** What one firing of [Generate] leaves behind *)

Module GenerateFacts.
Import NoiseChannel Reference.

Lemma Generate_frame (cl : Z) (c : t) :
  bias (Generate cl c) = bias c /\
  sequencer (Generate cl c) = sequencer c /\
  frequency_shift (Generate cl c) = frequency_shift c /\
  frequency_ratio (Generate cl c) = frequency_ratio c /\
  width (Generate cl c) = width c /\
  length_enable (Generate cl c) = length_enable c /\
  dac_enable (Generate cl c) = dac_enable c.
Proof.
  unfold Generate.
  destruct (length_enable c && _); [simpl; tauto|].
  destruct (truthy _); destruct (_ <? _); simpl; tauto.
Qed.

Lemma Generate_lfsr (cl : Z) (c : t) :
  silenced c = false ->
  lfsr (Generate cl c) =
    skip_loop (Z.to_nat (skip_count c)) (width c) (skip_body (width c) (lfsr c)).
Proof.
  unfold silenced, Generate, skip_body. intros ->.
  destruct (truthy _); destruct (_ <? _); reflexivity.
Qed.

Lemma Generate_sample (cl : Z) (c : t) :
  silenced c = false ->
  sample (Generate cl c) =
    if negb (dac_enable c) then 0
    else (if truthy (Z.land (lfsr c) 1) then 8 else -8) *
         Envelope.current_volume (Sequencer.envelope (sequencer c)).
Proof.
  unfold silenced, Generate. intros ->.
  destruct (truthy _); destruct (_ <? _); reflexivity.
Qed.

Lemma Generate_rearm (cl : Z) (c : t) :
  silenced c = false ->
  let noise_interval :=
    GetSynthesisInterval (frequency_ratio c) (frequency_shift c) in
  let mixer_interval := BIAS.GetSampleInterval (bias c) in
  skip_count (Generate cl c) =
    (if noise_interval <? mixer_interval
     then Z.quot mixer_interval noise_interval - 1 else 0) /\
  scheduler (Generate cl c) =
    Scheduler.Add
      (int32 ((if noise_interval <? mixer_interval
               then mixer_interval else noise_interval) - cl))
      Scheduler.event_cb (scheduler c) /\
  enabled (Generate cl c) = enabled c.
Proof.
  unfold silenced, Generate. intros ->.
  destruct (truthy _); destruct (_ <? _); simpl; auto.
Qed.

Lemma Generate_silenced (cl : Z) (c : t) :
  silenced c = true ->
  Generate cl c =
    {| scheduler :=
         Scheduler.Add (int32 (GetSynthesisInterval 7 15 - cl))
                       Scheduler.event_cb (scheduler c);
       bias := bias c;
       sequencer := sequencer c;
       frequency_shift := frequency_shift c;
       frequency_ratio := frequency_ratio c;
       width := width c;
       length_enable := length_enable c;
       dac_enable := dac_enable c;
       enabled := false;
       lfsr := lfsr c;
       sample := 0;
       skip_count := skip_count c |}.
Proof. unfold silenced, Generate. intros ->. reflexivity. Qed.

(** [Generate] keeps every field in its range. *)
Lemma Generate_wf (cl : Z) (c : t) : wf c = true -> wf (Generate cl c) = true.
Proof.
  intros W.
  destruct (silenced c) eqn:G.
  - rewrite (Generate_silenced _ _ G). exact W.
  - destruct (Generate_frame cl c) as (Eb & Es & Efs & Efr & Ew & _ & _).
    pose proof (Generate_lfsr cl c G) as El.
    destruct (Generate_rearm cl c G) as (Ek & _ & _).
    apply WfFacts.wf_ranges in W. apply WfFacts.wf_ranges.
    destruct W as (Hb & He & Hfs & Hfr & Hw & Hl & Hk).
    unfold Reference.ranges. rewrite Eb, Es, Efs, Efr, Ew, El, Ek.
    pose proof (IntervalFacts.GetSynthesisInterval_bounds _ _ Hfr Hfs) as Hn.
    pose proof (IntervalFacts.GetSampleInterval_bounds (bias c) Hb) as Hm.
    destruct (LfsrFacts.skip_body_step (width c) (lfsr c) Hw Hl) as [E1 B1].
    rewrite E1.
    destruct (LfsrFacts.skip_loop_iter (Z.to_nat (skip_count c)) (width c)
                (lfsr_step (width c) (lfsr c)) Hw B1) as [E2 B2].
    rewrite E2.
    repeat split; try assumption; try lia.
    + destruct (_ <? _) eqn:C; bool_facts; [|lia].
      rewrite Z.quot_div_nonneg by lia.
      assert (1 <= BIAS.GetSampleInterval (bias c) /
                   GetSynthesisInterval (frequency_ratio c) (frequency_shift c)).
      { apply Z.div_le_lower_bound; lia. }
      lia.
    + destruct (_ <? _) eqn:C; bool_facts; [|lia].
      rewrite Z.quot_div_nonneg by lia.
      assert (BIAS.GetSampleInterval (bias c) /
                GetSynthesisInterval (frequency_ratio c) (frequency_shift c) < 65).
      { apply Z.div_lt_upper_bound; lia. }
      lia.
Qed.

(** The sample fits a signed 8-bit integer, whichever signed type the
    header declares it with. *)
Lemma Generate_sample_bounds (cl : Z) (c : t) :
  wf c = true -> -120 <= sample (Generate cl c) <= 120.
Proof.
  intros W. apply WfFacts.wf_ranges in W. destruct W as (_ & He & _).
  apply WfFacts.Envelope_wf_ranges in He.
  destruct (silenced c) eqn:G.
  - rewrite (Generate_silenced _ _ G). cbn [sample]. lia.
  - rewrite (Generate_sample _ _ G).
    destruct (negb (dac_enable c)); [lia|].
    destruct (truthy _); lia.
Qed.
End GenerateFacts.

(** ** Firing of the generation event *)

Module GenerateSpec.
Import NoiseChannel Reference.

(** C1.  On a firing that the length gate does not silence, with
    [noise_interval = GetSynthesisInterval(frequency_ratio, frequency_shift)]
    and [mixer_interval = bias.GetSampleInterval()]: when
    [noise_interval < mixer_interval] the new [skip_count] is
    [mixer_interval / noise_interval - 1] and the event is re-armed after
    [mixer_interval - cycles_late] cycles; otherwise [skip_count] is 0 and
    the event is re-armed after [noise_interval - cycles_late] cycles.  In
    both cases the register has advanced by exactly [s + 1] raw steps,
    [s] being [skip_count] on entry. *)
Theorem Generate_skip_count_and_rearm (c : t) (cycles_late : Z) :
  wf c = true ->
  0 <= cycles_late <= INT_MAX ->
  silenced c = false ->
  let noise_interval :=
    GetSynthesisInterval (frequency_ratio c) (frequency_shift c) in
  let mixer_interval := BIAS.GetSampleInterval (bias c) in
  let c' := Generate cycles_late c in
  (noise_interval < mixer_interval ->
     skip_count c' = mixer_interval / noise_interval - 1 /\
     scheduler c' =
       scheduler c ++ [ {| Scheduler.delay := mixer_interval - cycles_late;
                           Scheduler.callback := Scheduler.event_cb |} ]) /\
  (mixer_interval <= noise_interval ->
     skip_count c' = 0 /\
     scheduler c' =
       scheduler c ++ [ {| Scheduler.delay := noise_interval - cycles_late;
                           Scheduler.callback := Scheduler.event_cb |} ]) /\
  lfsr c' =
    Nat.iter (Z.to_nat (skip_count c + 1)) (lfsr_step (width c)) (lfsr c).
Proof.
  intros W Hcl G noise_interval mixer_interval c'.
  apply WfFacts.wf_ranges in W.
  destruct W as (Hb & _ & Hfs & Hfr & Hw & Hl & Hk).
  pose proof (IntervalFacts.GetSynthesisInterval_bounds _ _ Hfr Hfs) as Hn.
  pose proof (IntervalFacts.GetSampleInterval_bounds _ Hb) as Hm.
  rewrite IntervalFacts.GetSynthesisInterval_slowest in Hn.
  fold noise_interval in Hn. fold mixer_interval in Hm.
  destruct (GenerateFacts.Generate_rearm cycles_late c G) as (Ek & Es & _).
  fold noise_interval mixer_interval c' in Ek, Es.
  unfold INT_MAX in Hcl.
  split; [|split].
  - intros Lt. apply Z.ltb_lt in Lt. rewrite Lt in Ek, Es.
    rewrite Z.quot_div_nonneg in Ek by lia.
    rewrite int32_small in Es by (unfold INT_MAX; lia).
    split; assumption.
  - intros Ge. apply Z.ltb_ge in Ge. rewrite Ge in Ek, Es.
    rewrite int32_small in Es by (unfold INT_MAX; lia).
    split; assumption.
  - unfold c'. rewrite (GenerateFacts.Generate_lfsr _ _ G).
    destruct (LfsrFacts.skip_body_step _ _ Hw Hl) as [E1 B1]. rewrite E1.
    destruct (LfsrFacts.skip_loop_iter (Z.to_nat (skip_count c)) _ _ Hw B1)
      as [E2 _].
    rewrite E2, <- Nat.iter_succ_r.
    f_equal. lia.
Qed.

(** C4.  When [length_enable] is set and [sequencer.length <= 0] at the
    moment the event fires, [Generate] clears [enabled], outputs silence,
    leaves the register alone and re-arms the event after
    [GetSynthesisInterval(7, 15) - cycles_late] cycles, the longest interval
    any legal ratio and shift give; nothing the gate depends on changes, so
    the next firing re-arms again. *)
Theorem Generate_length_expired (c : t) (cycles_late : Z) :
  0 <= cycles_late <= INT_MAX ->
  length_enable c = true ->
  Sequencer.length (sequencer c) <= 0 ->
  let c' := Generate cycles_late c in
  enabled c' = false /\
  sample c' = 0 /\
  lfsr c' = lfsr c /\
  scheduler c' =
    scheduler c ++
    [ {| Scheduler.delay := GetSynthesisInterval 7 15 - cycles_late;
         Scheduler.callback := Scheduler.event_cb |} ] /\
  (forall ratio shift,
      0 <= ratio <= 7 -> 0 <= shift <= 15 ->
      GetSynthesisInterval ratio shift <= GetSynthesisInterval 7 15) /\
  silenced c' = true.
Proof.
  intros Hcl He Hlen c'.
  assert (G : silenced c = true).
  { unfold silenced. rewrite He. simpl. now apply Z.leb_le. }
  unfold c'. rewrite (GenerateFacts.Generate_silenced _ _ G).
  unfold silenced, Scheduler.Add.
  cbn [enabled sample lfsr scheduler length_enable sequencer].
  rewrite int32_small
    by (rewrite IntervalFacts.GetSynthesisInterval_slowest;
        unfold INT_MAX in *; lia).
  repeat split; try reflexivity.
  - intros ratio shift Hr Hs.
    apply IntervalFacts.GetSynthesisInterval_bounds; assumption.
  - rewrite He. now apply Z.leb_le.
Qed.

(** C8.  On a firing that the length gate does not silence: the carry is
    bit 0 of the register, the register is shifted right by one and, when
    the carry was 1, XORed with [0x6000] (width 0) or [0x0060] (width 1);
    the sample is [+8] on carry and [-8] otherwise, times
    [current_volume]; and the sample is 0 whenever the DAC is off, on
    every firing, whatever the envelope and the length counter hold.  The
    skip loop then runs from the register so obtained. *)
Theorem Generate_sample_value (c : t) (cycles_late : Z) :
  (dac_enable c = false -> sample (Generate cycles_late c) = 0) /\
  (wf c = true ->
   silenced c = false ->
   let carry := Z.land (lfsr c) 1 in
   let shifted := Z.shiftr (lfsr c) 1 in
   let tap := if width c =? 0 then 0x6000 else 0x0060 in
   let stepped := if carry =? 1 then Z.lxor shifted tap else shifted in
   let amplitude := if carry =? 1 then 8 else -8 in
   let volume := Envelope.current_volume (Sequencer.envelope (sequencer c)) in
   let c' := Generate cycles_late c in
   sample c' = (if dac_enable c then amplitude * volume else 0) /\
   lfsr c' = skip_loop (Z.to_nat (skip_count c)) (width c) stepped).
Proof.
  split.
  - intros D. destruct (silenced c) eqn:G.
    + now rewrite (GenerateFacts.Generate_silenced _ _ G).
    + rewrite (GenerateFacts.Generate_sample _ _ G), D. reflexivity.
  - intros W G carry shifted tap stepped amplitude volume c'.
    apply WfFacts.wf_ranges in W.
    destruct W as (_ & _ & _ & _ & Hw & Hl & _).
    assert (Hc : (carry =? 1) = Z.testbit (lfsr c) 0).
    { unfold carry. change 1 with (Z.ones 1) at 1.
      rewrite Z.land_ones by lia. change (2 ^ 1) with 2.
      rewrite <- Z.bit0_mod. now destruct (Z.testbit (lfsr c) 0). }
    split.
    + unfold c'. rewrite (GenerateFacts.Generate_sample _ _ G).
      rewrite truthy_land_1. unfold amplitude. rewrite Hc.
      now destruct (dac_enable c).
    + unfold c'. rewrite (GenerateFacts.Generate_lfsr _ _ G).
      destruct (LfsrFacts.skip_body_step _ _ Hw Hl) as [E1 _]. rewrite E1.
      unfold lfsr_step, tap_mask, stepped, shifted, tap. now rewrite Hc.
Qed.
End GenerateSpec.

(** ** Register reads and writes *)

Module RegisterFacts.
Import NoiseChannel.

Lemma Write_cases (D offset value : Z) (c : t) :
  offset = 0 \/ offset = 1 \/ offset = 4 \/ offset = 5 \/
  Write D offset value c = c.
Proof.
  destruct offset as [|p|p]; auto 10.
  do 3 (try destruct p as [p|p|]); auto 10.
Qed.

Lemma Read_state (offset : Z) (c : t) : snd (Read offset c) = c.
Proof.
  unfold Read.
  destruct offset as [|p|p]; try reflexivity.
  do 3 (try destruct p as [p|p|]); reflexivity.
Qed.

Lemma byte_fields (value : Z) :
  0 <= value < 256 ->
  0 <= Z.land value 7 <= 7 /\
  0 <= Z.land (Z.shiftr value 3) 1 <= 1 /\
  0 <= Z.shiftr value 4 <= 15.
Proof.
  intros H.
  change 7 with (Z.ones 3) at 1 2. change 1 with (Z.ones 1) at 1 2.
  rewrite !Z.land_ones, !Z.shiftr_div_pow2 by lia.
  change (2 ^ 3) with 8. change (2 ^ 1) with 2. change (2 ^ 4) with 16.
  pose proof (Z.mod_pos_bound value 8 ltac:(lia)).
  pose proof (Z.mod_pos_bound (value / 8) 2 ltac:(lia)).
  assert (0 <= value / 16) by (apply Z.div_pos; lia).
  assert (value / 16 < 16) by (apply Z.div_lt_upper_bound; lia).
  lia.
Qed.

Lemma land_15_range (z : Z) : 0 <= Z.land z 15 <= 15.
Proof.
  change 15 with (Z.ones 4) at 1 2. rewrite Z.land_ones by lia.
  change (2 ^ 4) with 16. pose proof (Z.mod_pos_bound z 16 ltac:(lia)). lia.
Qed.

Lemma Reset_wf (c : t) : wf c = true -> wf (Reset c) = true.
Proof.
  intros W. apply WfFacts.wf_ranges in W. apply WfFacts.wf_ranges.
  destruct W as (Hb & He & _).
  apply WfFacts.Envelope_wf_ranges in He.
  unfold Reference.ranges. simpl.
  repeat split; try assumption; try lia.
  apply WfFacts.Envelope_wf_ranges. simpl. exact He.
Qed.

Lemma Write_wf (D offset value : Z) (c : t) :
  0 <= value < 256 -> wf c = true -> wf (Write D offset value c) = true.
Proof.
  intros Hv W.
  destruct (byte_fields value Hv) as (F7 & F1 & F15).
  destruct (Write_cases D offset value c) as [-> | [-> | [-> | [-> | ->]]]];
    [ | | | | exact W];
    apply WfFacts.wf_ranges in W; apply WfFacts.wf_ranges;
    destruct W as (Hb & He & Hfs & Hfr & Hw & Hl & Hk);
    apply WfFacts.Envelope_wf_ranges in He;
    unfold Reference.ranges.
  - simpl. repeat split; try assumption; try lia.
    apply WfFacts.Envelope_wf_ranges. exact He.
  - simpl. repeat split; try assumption; try lia.
    apply WfFacts.Envelope_wf_ranges. simpl.
    match goal with
    | |- context [Z.land ?x 15] => pose proof (land_15_range x)
    end.
    lia.
  - simpl. repeat split; try assumption; try lia.
    apply WfFacts.Envelope_wf_ranges. exact He.
  - assert (Hi : 0 <= nth (Z.to_nat (width c)) lfsr_init 0 < 65536).
    { assert (C : width c = 0 \/ width c = 1) by lia.
      destruct C as [-> | ->]; simpl; lia. }
    unfold Write. destruct (truthy (Z.land value 128));
      cbn [bias sequencer frequency_shift frequency_ratio width lfsr
           skip_count].
    + repeat split; try assumption; try lia.
      apply WfFacts.Envelope_wf_ranges. simpl. lia.
    + repeat split; try assumption; try lia.
      apply WfFacts.Envelope_wf_ranges. exact He.
Qed.
End RegisterFacts.

Module RegisterSpec.
Import NoiseChannel Reference.

Section WithDecrement.
(** The value of [Envelope::Direction::Decrement]; every statement below
    holds whichever integer the enumeration gives it. *)
Variable Decrement : Z.

Local Abbreviation envelope_of c := (Sequencer.envelope (sequencer c)).

(** C3.  A write to offset 1 corrects [current_volume] from the divider
    and direction held before the write: plus 1 if the old divider was
    0 and the envelope is active, else plus 2 if the old direction was
    Decrement; then [16 - current_volume] if the direction written
    differs from the old one; then reduced mod 16.  From volume 5,
    direction Decrement, divider 0 and an active envelope, a write that
    keeps divider 0 and the direction gives volume 6. *)
Theorem Write_zombie_mode (value : Z) (c : t) :
  let old := envelope_of c in
  let new := envelope_of (Write Decrement 1 value c) in
  let volume := Envelope.current_volume old in
  let bumped :=
    if (Envelope.divider old =? 0) && Envelope.active old then volume + 1
    else if Envelope.direction old =? Decrement then volume + 2
    else volume in
  let flipped :=
    if Envelope.direction new =? Envelope.direction old then bumped
    else 16 - bumped in
  Envelope.divider new = Z.land value 7 /\
  Envelope.direction new = Z.land (Z.shiftr value 3) 1 /\
  Envelope.current_volume new = flipped mod 16 /\
  (volume = 5 ->
   Envelope.direction old = Decrement ->
   Envelope.divider old = 0 ->
   Envelope.active old = true ->
   Envelope.divider new = 0 ->
   Envelope.direction new = Envelope.direction old ->
   Envelope.current_volume new = 6).
Proof.
  intros old new volume bumped flipped.
  assert (E : Envelope.current_volume new = flipped mod 16).
  { unfold new, flipped, bumped, volume, old. simpl.
    change 15 with (Z.ones 4). rewrite Z.land_ones by lia.
    change (2 ^ 4) with 16.
    rewrite (Z.eqb_sym (Z.land (Z.shiftr value 3) 1)).
    destruct (Envelope.direction (envelope_of c) =? _); reflexivity. }
  repeat split; try reflexivity; try exact E.
  intros Hv Hd Hdiv Ha _ Hsame.
  rewrite E. unfold flipped, bumped.
  rewrite Hsame, Z.eqb_refl, Hdiv, Ha, Hv. reflexivity.
Qed.

(** C5.  A write to offset 5 with bit 7 set reseeds the register to
    [0x4000] when [width] is 0 and to [0x0040] when it is 1 and restarts
    the sequencer, whatever [dac_enable] is; it sets [enabled] when the
    DAC is on and leaves it as it was otherwise. *)
Theorem Write_trigger (value : Z) (c : t) :
  Z.testbit value 7 = true ->
  let c' := Write Decrement 5 value c in
  (width c = 0 -> lfsr c' = 0x4000) /\
  (width c = 1 -> lfsr c' = 0x0040) /\
  sequencer c' = Sequencer.Restart (sequencer c) /\
  (dac_enable c = true -> enabled c' = true) /\
  (dac_enable c = false -> enabled c' = enabled c).
Proof.
  intros Hbit c'. unfold c', Write.
  change 128 with (2 ^ 7). rewrite truthy_land_bit, Hbit by lia. simpl.
  repeat split.
  - intros ->. reflexivity.
  - intros ->. reflexivity.
  - intros ->. reflexivity.
  - intros ->. reflexivity.
Qed.

(** C7.  Writing a byte [b] to offset 1 and reading offset 1 gives [b]
    back, rebuilt as [divider | direction << 3 | initial_volume << 4]
    from the envelope fields decoded from [b]; the state the write
    started from plays no part. *)
Theorem Write_Read_envelope (b : Z) (c : t) :
  0 <= b < 256 ->
  let c' := Write Decrement 1 b c in
  let e := envelope_of c' in
  Envelope.divider e = Z.land b 7 /\
  Envelope.direction e = Z.land (Z.shiftr b 3) 1 /\
  Envelope.initial_volume e = Z.shiftr b 4 /\
  fst (Read 1 c') =
    Z.lor (Z.lor (Envelope.divider e) (Z.shiftl (Envelope.direction e) 3))
          (Z.shiftl (Envelope.initial_volume e) 4) /\
  fst (Read 1 c') = b.
Proof.
  intros Hb c' e.
  assert (P : Z.lor (Z.lor (Z.land b 7) (Z.shiftl (Z.land (Z.shiftr b 3) 1) 3))
                    (Z.shiftl (Z.shiftr b 4) 4) = b).
  { apply Z.eqb_eq.
    apply (forallb_range
             (fun b => Z.lor (Z.lor (Z.land b 7)
                                    (Z.shiftl (Z.land (Z.shiftr b 3) 1) 3))
                             (Z.shiftl (Z.shiftr b 4) 4) =? b) 0 256).
    - vm_compute. reflexivity.
    - lia. }
  unfold e, c'.
  cbn [Read Write fst sequencer Sequencer.envelope Sequencer.with_envelope
       Envelope.divider Envelope.direction Envelope.initial_volume].
  unfold u8. rewrite P, Z.mod_small by lia.
  repeat split; reflexivity.
Qed.

(** C9.  [current_volume] lies in [0, 15]: after a write of any byte
    to offset 1, whatever the volume was before and whichever
    corrections applied; and, starting from a well-formed channel, after
    any sequence of calls to [Reset], [Generate], [Read] and [Write]. *)
Theorem current_volume_range :
  (forall (value : Z) (c : t),
      0 <= Envelope.current_volume (envelope_of (Write Decrement 1 value c))
        <= 15) /\
  (forall (ks : list Calls.Call) (c : t),
      wf c = true ->
      forallb Calls.byte_args ks = true ->
      wf (Calls.run Decrement ks c) = true /\
      0 <= Envelope.current_volume (envelope_of (Calls.run Decrement ks c))
        <= 15).
Proof.
  split.
  - intros value c. simpl. apply RegisterFacts.land_15_range.
  - intros ks c W Hks.
    assert (R : wf (Calls.run Decrement ks c) = true).
    { revert c W. induction ks as [| k ks IH]; intros c W; [exact W|].
      simpl in Hks. apply andb_true_iff in Hks. destruct Hks as [Hk Hks].
      simpl. apply (IH Hks).
      destruct k as [| cl | offset | offset value]; simpl.
      - now apply RegisterFacts.Reset_wf.
      - now apply GenerateFacts.Generate_wf.
      - now rewrite RegisterFacts.Read_state.
      - simpl in Hk. bool_facts. apply RegisterFacts.Write_wf; [lia | exact W]. }
    split; [exact R|].
    apply WfFacts.wf_ranges in R. destruct R as (_ & He & _).
    apply WfFacts.Envelope_wf_ranges in He. lia.
Qed.
End WithDecrement.

(** C10.  [Read] changes nothing: the channel, its sequencer and its
    collaborators are after the call what they were before; and it
    returns 0 at offsets 0, 2 and 3 and at every offset other than 1, 4
    and 5. *)
Theorem Read_pure (offset : Z) (c : t) :
  snd (Read offset c) = c /\
  fst (Read 0 c) = 0 /\
  fst (Read 2 c) = 0 /\
  fst (Read 3 c) = 0 /\
  (offset <> 1 -> offset <> 4 -> offset <> 5 -> fst (Read offset c) = 0).
Proof.
  split; [apply RegisterFacts.Read_state|].
  repeat split.
  intros N1 N4 N5. unfold Read.
  destruct offset as [|p|p]; try reflexivity.
  do 3 (try destruct p as [p|p|]); try reflexivity; congruence.
Qed.
End RegisterSpec.

(** ** The mixer tick *)

Module TickFacts.
Import APU Reference.

(** Every pair of an 8-bit latch and a sum of three 8-bit samples mixes
    without rounding: both quotients and their sum are representable. *)
Lemma mix_exact_all :
  forallb (fun l => forallb (mix_exact l) (range (-384) 766)) (range (-128) 256)
  = true.
Proof. vm_cast_no_check (eq_refl true). Qed.

Lemma mix_denotes (l s : Z) :
  -128 <= l <= 127 -> -384 <= s <= 381 ->
  Float.denotes (mix l s) (inject_Z l / 256 + inject_Z s / 512)%Q.
Proof.
  intros Hl Hs.
  pose proof (forallb_range _ _ _ mix_exact_all l ltac:(lia)) as H.
  cbv beta in H.
  pose proof (forallb_range _ _ _ H s ltac:(lia)) as E.
  unfold mix_exact in E. cbv zeta in E.
  apply andb_true_iff in E. destruct E as [F Q].
  split; [exact F | now apply Qeq_bool_iff].
Qed.

Lemma int8_range (z : Z) : int8 z = true -> -128 <= z <= 127.
Proof. unfold int8. intros H. bool_facts. lia. Qed.

Lemma latch_range (a : t) :
  wf a = true ->
  -128 <= nth 0 (latch a) 0 <= 127 /\ -128 <= nth 1 (latch a) 0 <= 127.
Proof.
  unfold wf. intros W.
  repeat (apply andb_true_iff in W; destruct W as [W ?]).
  destruct (latch a) as [| x [| y [| z r]]]; try discriminate.
  match goal with
  | H : forallb int8 _ = true |- _ =>
      simpl in H; rewrite andb_true_r in H;
      apply andb_true_iff in H; destruct H as [Hx Hy]
  end.
  simpl. split; now apply int8_range.
Qed.

Lemma psg_range (a : t) :
  wf a = true ->
  -384 <= sample (psg1 a) + sample (psg2 a) + sample (psg3 a) <= 381.
Proof.
  unfold wf. intros W.
  repeat (apply andb_true_iff in W; destruct W as [W ?]).
  repeat match goal with
         | H : int8 _ = true |- _ => apply int8_range in H
         end.
  lia.
Qed.
End TickFacts.

Module TickSpec.
Import APU.

(** C6.  [Tick] writes to the resampler the frame
    [(latch[0]/256 + S/512, latch[1]/256 + S/512)], [S] being the sum of
    the samples of the tone channels the mixer owns, and then adds
    [512 >> resolution] to [event.countdown].  With both latches at 0 and
    one channel at +40, the others at 0, the frame is [(40/512, 40/512)]. *)
Theorem Tick_frame (a : t) :
  wf a = true ->
  let l0 := nth 0 (latch a) 0 in
  let l1 := nth 1 (latch a) 0 in
  let S := sample (psg1 a) + sample (psg2 a) + sample (psg3 a) in
  let a' := Tick a in
  exists frame : StereoSample.t,
    Resampler.written (resampler a') =
      Resampler.written (resampler a) ++ [frame] /\
    Float.denotes (StereoSample.left frame)
                  (inject_Z l0 / 256 + inject_Z S / 512)%Q /\
    Float.denotes (StereoSample.right frame)
                  (inject_Z l1 / 256 + inject_Z S / 512)%Q /\
    countdown a' = countdown a + Z.shiftr 512 (BIAS.resolution (bias a)) /\
    (l0 = 0 -> l1 = 0 ->
     In (sample (psg1 a), sample (psg2 a), sample (psg3 a))
        [(40, 0, 0); (0, 40, 0); (0, 0, 40)] ->
     Float.denotes (StereoSample.left frame) (40 # 512)%Q /\
     Float.denotes (StereoSample.right frame) (40 # 512)%Q).
Proof.
  intros W l0 l1 S a'.
  destruct (TickFacts.latch_range a W) as [H0 H1].
  pose proof (TickFacts.psg_range a W) as HS.
  pose proof (TickFacts.mix_denotes l0 S H0 HS) as D0.
  pose proof (TickFacts.mix_denotes l1 S H1 HS) as D1.
  exists {| StereoSample.left := mix l0 S; StereoSample.right := mix l1 S |}.
  cbn [StereoSample.left StereoSample.right].
  split; [|split; [exact D0 | split; [exact D1 | split; [reflexivity|]]]].
  - unfold a', Tick. cbn [resampler Resampler.Write Resampler.written].
    destruct (negb _); reflexivity.
  - intros E0 E1 HIn.
    assert (ES : S = 40).
    { unfold S. simpl in HIn.
      destruct HIn as [E | [E | [E | []]]]; inversion E; lia. }
    destruct D0 as [F0 Q0], D1 as [F1 Q1].
    split; (split; [assumption|]).
    + rewrite Q0, E0, ES. reflexivity.
    + rewrite Q1, E1, ES. reflexivity.
Qed.
End TickSpec.

(** ** The host callback *)

Module CallbackFacts.
Import APU.

Section WithHost.
Variable scale : StereoSample.t -> StereoSample.t.
Variable to_int16 : Float.t -> Z.
Variable stale : StereoSample.t.

Local Abbreviation convert f := (store to_int16 (scale f)).

Lemma drain_firstn (n : nat) :
  forall b : Buffer,
    (n <= List.length b)%nat ->
    drain scale to_int16 stale n b =
      (map (fun f => convert f) (firstn n b), skipn n b).
Proof.
  induction n as [| n IH]; intros b Hn; [reflexivity|].
  destruct b as [| f b]; [simpl in Hn; lia|].
  simpl in Hn. simpl. rewrite IH by lia. reflexivity.
Qed.

Lemma replay_length (n : nat) :
  forall (y available : Z) (b : Buffer),
    List.length (replay scale to_int16 stale n y available b) = n.
Proof.
  induction n as [| n IH]; intros y available b; [reflexivity|].
  simpl. now rewrite IH.
Qed.

Lemma replay_nth (n : nat) :
  forall (y : Z) (b : Buffer) (x : nat),
    0 <= y < Z.of_nat (List.length b) ->
    (x < n)%nat ->
    nth x (replay scale to_int16 stale n y (Z.of_nat (List.length b)) b) (0, 0) =
      convert (nth (Z.to_nat ((y + Z.of_nat x) mod Z.of_nat (List.length b)))
                   b stale).
Proof.
  induction n as [| n IH]; intros y b x Hy Hx; [lia|].
  simpl replay. destruct x as [| x].
  - simpl nth at 1. unfold RingBuffer.Peek.
    rewrite Z.add_0_r, Z.mod_small by lia. reflexivity.
  - simpl nth at 1.
    destruct (Z.eqb_spec (y + 1) (Z.of_nat (List.length b))) as [E | N].
    + rewrite IH by lia. do 3 f_equal.
      replace (y + Z.of_nat (S x))
        with (Z.of_nat x + 1 * Z.of_nat (List.length b)) by lia.
      rewrite Z.mod_add by lia. reflexivity.
    + rewrite IH by lia.
      replace (y + 1 + Z.of_nat x) with (y + Z.of_nat (S x)) by lia.
      reflexivity.
Qed.

Lemma samples_of_byte_len (N : nat) :
  4 * Z.of_nat N <= INT_MAX ->
  int32 ((4 * Z.of_nat N) mod 2 ^ 64 / 2 / 2) = Z.of_nat N.
Proof.
  unfold INT_MAX. intros H.
  rewrite Z.mod_small by (change (2 ^ 64) with 18446744073709551616; lia).
  rewrite Z.div_div by lia. change (2 * 2) with 4.
  rewrite Z.mul_comm, Z.div_mul by lia.
  apply int32_small. unfold INT_MAX. lia.
Qed.
End WithHost.
End CallbackFacts.

Module CallbackSpec.
Import APU.

Section WithHost.
Variable scale : StereoSample.t -> StereoSample.t.
Variable to_int16 : Float.t -> Z.
Variable stale : StereoSample.t.

Local Abbreviation convert f := (store to_int16 (scale f)).

(** C2, as the code has it.  A callback asked for [N] stereo frames
    always stores [N] converted frames.  When the ring buffer holds at
    least [2N] frames it consumes exactly the [N] oldest and stores
    their conversions; when it holds [K] frames with [0 < K < 2N] it
    consumes nothing and stores, at place [x], the conversion of the
    frame [x mod K] places behind the oldest. *)
Theorem AudioCallback_frames (b : Buffer) (N : nat) :
  4 * Z.of_nat N <= INT_MAX ->
  let K := List.length b in
  let r := AudioCallback scale to_int16 stale b (4 * Z.of_nat N) in
  List.length (fst r) = N /\
  ((2 * N <= K)%nat ->
     fst r = map (fun f => convert f) (firstn N b) /\
     snd r = skipn N b) /\
  ((0 < K < 2 * N)%nat ->
     snd r = b /\
     forall x : nat,
       (x < N)%nat ->
       nth x (fst r) (0, 0) = convert (nth (x mod K) b stale)).
Proof.
  intros HN K r.
  unfold r, AudioCallback.
  rewrite CallbackFacts.samples_of_byte_len by exact HN.
  rewrite Nat2Z.id, int32_small by (unfold INT_MAX in *; lia).
  unfold RingBuffer.Available. fold K.
  destruct (Z.leb_spec (2 * Z.of_nat N) (Z.of_nat K)) as [Le | Gt].
  - rewrite CallbackFacts.drain_firstn by (unfold K in *; lia).
    cbn [fst snd].
    split; [|split].
    + rewrite length_map, length_firstn. unfold K in *. lia.
    + intros _. split; reflexivity.
    + intros [_ Hlt]. lia.
  - cbn [fst snd].
    split; [|split].
    + apply CallbackFacts.replay_length.
    + intros Hle. lia.
    + intros [Hpos _]. split; [reflexivity|].
      intros x Hx. unfold K.
      rewrite CallbackFacts.replay_nth by (unfold K in *; lia).
      rewrite Z.add_0_l, <- Nat2Z.inj_mod, Nat2Z.id. reflexivity.
Qed.
End WithHost.
End CallbackSpec.

(** ** The statements at concrete inputs *)

Module Witnesses.
Import Examples Reference.

Lemma Generate_skip_count_and_rearm_witness :
  NoiseChannel.wf channel0 = true /\
  0 <= 3 <= INT_MAX /\
  silenced channel0 = false /\
  NoiseChannel.skip_count (NoiseChannel.Generate 3 channel0) = 7 /\
  NoiseChannel.scheduler (NoiseChannel.Generate 3 channel0) =
    [ {| Scheduler.delay := 509; Scheduler.callback := Scheduler.event_cb |} ] /\
  NoiseChannel.lfsr (NoiseChannel.Generate 3 channel0) =
    Nat.iter 8 (lfsr_step 0) 0x4001.
Proof.
  assert (W : NoiseChannel.wf channel0 = true) by reflexivity.
  assert (R : 0 <= 3 <= INT_MAX) by (split; discriminate).
  assert (G : silenced channel0 = false) by reflexivity.
  destruct (GenerateSpec.Generate_skip_count_and_rearm channel0 3 W R G)
    as (Hlt & _ & Hl).
  destruct (Hlt eq_refl) as [Hk Hs].
  exact (conj W (conj R (conj G (conj Hk (conj Hs Hl))))).
Defined.

Lemma Generate_length_expired_witness :
  0 <= 5 <= INT_MAX /\
  NoiseChannel.length_enable expired0 = true /\
  Sequencer.length (NoiseChannel.sequencer expired0) <= 0 /\
  NoiseChannel.enabled (NoiseChannel.Generate 5 expired0) = false /\
  NoiseChannel.sample (NoiseChannel.Generate 5 expired0) = 0 /\
  NoiseChannel.lfsr (NoiseChannel.Generate 5 expired0) = 0x4001 /\
  NoiseChannel.scheduler (NoiseChannel.Generate 5 expired0) =
    [ {| Scheduler.delay := 3670011; Scheduler.callback := Scheduler.event_cb |} ].
Proof.
  assert (R : 0 <= 5 <= INT_MAX) by (split; discriminate).
  assert (L : Sequencer.length (NoiseChannel.sequencer expired0) <= 0)
    by discriminate.
  destruct (GenerateSpec.Generate_length_expired expired0 5 R eq_refl L)
    as (He & Hs & Hl & Hq & _).
  exact (conj R (conj eq_refl (conj L (conj He (conj Hs (conj Hl Hq)))))).
Defined.

Lemma Generate_sample_value_witness :
  (NoiseChannel.dac_enable muted0 = false /\
   NoiseChannel.sample (NoiseChannel.Generate 0 muted0) = 0) /\
  (NoiseChannel.wf channel0 = true /\
   silenced channel0 = false /\
   NoiseChannel.sample (NoiseChannel.Generate 0 channel0) = 40 /\
   NoiseChannel.lfsr (NoiseChannel.Generate 0 channel0) =
     NoiseChannel.skip_loop 7 0 0x4000).
Proof.
  exact
    (conj
       (conj eq_refl
             (proj1 (GenerateSpec.Generate_sample_value muted0 0) eq_refl))
       (conj eq_refl
             (conj eq_refl
                   (proj2 (GenerateSpec.Generate_sample_value channel0 0)
                          eq_refl eq_refl)))).
Defined.

Lemma Write_zombie_mode_witness :
  let old := Sequencer.envelope (NoiseChannel.sequencer channel0) in
  let new :=
    Sequencer.envelope
      (NoiseChannel.sequencer (NoiseChannel.Write 0 1 0x50 channel0)) in
  Envelope.current_volume old = 5 /\
  Envelope.direction old = 0 /\
  Envelope.divider old = 0 /\
  Envelope.active old = true /\
  Envelope.divider new = 0 /\
  Envelope.direction new = Envelope.direction old /\
  Envelope.current_volume new = 6.
Proof.
  intros old new.
  destruct (RegisterSpec.Write_zombie_mode 0 0x50 channel0) as (_ & _ & _ & H).
  exact (conj eq_refl (conj eq_refl (conj eq_refl (conj eq_refl
          (conj eq_refl (conj eq_refl
             (H eq_refl eq_refl eq_refl eq_refl eq_refl eq_refl))))))).
Defined.

Lemma Write_trigger_witness :
  Z.testbit 0x80 7 = true /\
  NoiseChannel.lfsr (NoiseChannel.Write 0 5 0x80 channel0) = 0x4000 /\
  NoiseChannel.sequencer (NoiseChannel.Write 0 5 0x80 channel0) =
    Sequencer.Restart sequencer0 /\
  NoiseChannel.enabled (NoiseChannel.Write 0 5 0x80 channel0) = true /\
  NoiseChannel.enabled (NoiseChannel.Write 0 5 0x80 muted0) = false.
Proof.
  destruct (RegisterSpec.Write_trigger 0 0x80 channel0 eq_refl)
    as (H0 & _ & Hs & He & _).
  destruct (RegisterSpec.Write_trigger 0 0x80 muted0 eq_refl)
    as (_ & _ & _ & _ & Hm).
  exact (conj eq_refl
           (conj (H0 eq_refl) (conj Hs (conj (He eq_refl) (Hm eq_refl))))).
Defined.

Lemma Write_Read_envelope_witness :
  0 <= 0xA5 < 256 /\
  fst (NoiseChannel.Read 1 (NoiseChannel.Write 0 1 0xA5 channel0)) = 0xA5 /\
  fst (NoiseChannel.Read 1 (NoiseChannel.Write 1 1 0xA5 expired0)) = 0xA5.
Proof.
  assert (R : 0 <= 0xA5 < 256) by (split; [discriminate | reflexivity]).
  exact
    (conj R
       (conj (proj2 (proj2 (proj2 (proj2
                (RegisterSpec.Write_Read_envelope 0 0xA5 channel0 R)))))
             (proj2 (proj2 (proj2 (proj2
                (RegisterSpec.Write_Read_envelope 1 0xA5 expired0 R))))))).
Defined.

Lemma current_volume_range_witness :
  NoiseChannel.wf channel0 = true /\
  forallb Calls.byte_args trace0 = true /\
  NoiseChannel.wf (Calls.run 0 trace0 channel0) = true /\
  0 <= Envelope.current_volume
         (Sequencer.envelope
            (NoiseChannel.sequencer (Calls.run 0 trace0 channel0))) <= 15.
Proof.
  exact
    (conj eq_refl
       (conj eq_refl
             (proj2 (RegisterSpec.current_volume_range 0) trace0 channel0
                    eq_refl eq_refl))).
Defined.

Lemma Read_pure_witness :
  7 <> 1 /\ 7 <> 4 /\ 7 <> 5 /\
  snd (NoiseChannel.Read 7 channel0) = channel0 /\
  fst (NoiseChannel.Read 7 channel0) = 0.
Proof.
  assert (N1 : 7 <> 1) by discriminate.
  assert (N4 : 7 <> 4) by discriminate.
  assert (N5 : 7 <> 5) by discriminate.
  destruct (RegisterSpec.Read_pure 7 channel0) as (Hs & _ & _ & _ & Hv).
  exact (conj N1 (conj N4 (conj N5 (conj Hs (Hv N1 N4 N5))))).
Defined.

Lemma Tick_frame_witness :
  APU.wf apu0 = true /\
  exists frame : StereoSample.t,
    Resampler.written (APU.resampler (APU.Tick apu0)) = [frame] /\
    Float.denotes (StereoSample.left frame) (40 # 512)%Q /\
    Float.denotes (StereoSample.right frame) (40 # 512)%Q /\
    APU.countdown (APU.Tick apu0) = 512.
Proof.
  destruct (TickSpec.Tick_frame apu0 eq_refl) as (frame & Hw & _ & _ & Hc & Hex).
  destruct (Hex eq_refl eq_refl (or_introl eq_refl)) as [Hl Hr].
  exact (conj eq_refl
           (ex_intro _ frame (conj Hw (conj Hl (conj Hr Hc))))).
Defined.

Lemma AudioCallback_frames_witness :
  let short := [loud; quiet] in
  let long := [loud; quiet; quiet; loud; quiet; quiet; loud] in
  let r := APU.AudioCallback unscaled sign16 quiet short 12 in
  let r' := APU.AudioCallback unscaled sign16 quiet long 12 in
  4 * Z.of_nat 3 <= INT_MAX /\
  (List.length (fst r) = 3%nat /\
   snd r = short /\
   nth 2 (fst r) (0, 0) = APU.store sign16 (unscaled loud)) /\
  (fst r' = [(32767, -32767); (0, 0); (0, 0)] /\
   snd r' = [loud; quiet; quiet; loud]).
Proof.
  intros short long r r'.
  assert (R : 4 * Z.of_nat 3 <= INT_MAX) by discriminate.
  destruct (CallbackSpec.AudioCallback_frames unscaled sign16 quiet short 3 R)
    as (Hn & _ & Hu).
  assert (K : (0 < List.length short < 2 * 3)%nat) by (simpl; lia).
  destruct (Hu K) as [Hb Hx].
  destruct (CallbackSpec.AudioCallback_frames unscaled sign16 quiet long 3 R)
    as (_ & Hd & _).
  assert (K' : (2 * 3 <= List.length long)%nat) by (simpl; lia).
  exact (conj R (conj (conj Hn (conj Hb (Hx 2%nat (le_n 3)))) (Hd K'))).
Defined.

(** C2 as written fails at the threshold: asked for one frame while the
    buffer holds exactly one, the callback consumes nothing. *)
Lemma AudioCallback_holds_N_consumes_none :
  let b := [loud] in
  let r := APU.AudioCallback unscaled sign16 quiet b 4 in
  1 <= RingBuffer.Available b /\
  snd r = b /\
  snd r <> skipn 1 b.
Proof.
  intros b r. split; [discriminate|].
  split; [reflexivity | discriminate].
Defined.
End Witnesses.

(** ** Further behaviour of the noise channel *)

Module ChannelFacts.
Import NoiseChannel Reference Behaviour.

Lemma byte_repack (b : Z) :
  0 <= b < 256 ->
  Z.lor (Z.lor (Z.land b 7) (Z.shiftl (Z.land (Z.shiftr b 3) 1) 3))
        (Z.shiftl (Z.shiftr b 4) 4) = b.
Proof.
  intros Hb. apply Z.eqb_eq.
  apply (forallb_range
           (fun b => Z.lor (Z.lor (Z.land b 7)
                                  (Z.shiftl (Z.land (Z.shiftr b 3) 1) 3))
                           (Z.shiftl (Z.shiftr b 4) 4) =? b) 0 256);
    [vm_compute; reflexivity | lia].
Qed.

Lemma run_invariant (D : Z) (P : t -> Prop) (ok : Calls.Call -> bool) :
  (forall k c, ok k = true -> P c -> P (Calls.call D k c)) ->
  forall ks c, forallb ok ks = true -> P c -> P (Calls.run D ks c).
Proof.
  intros Step ks. induction ks as [| k ks IH]; intros c Hks Hc; [exact Hc|].
  simpl in Hks. apply andb_true_iff in Hks. destruct Hks as [Hk Hks].
  simpl. apply (IH _ Hks). now apply Step.
Qed.

Lemma Generate_enabled (cl : Z) (c : t) :
  enabled (Generate cl c) = if silenced c then false else enabled c.
Proof.
  destruct (silenced c) eqn:G.
  - now rewrite (GenerateFacts.Generate_silenced _ _ G).
  - now destruct (GenerateFacts.Generate_rearm cl c G) as (_ & _ & E).
Qed.

Lemma Generate_scheduler_length (cl : Z) (c : t) :
  List.length (scheduler (Generate cl c)) = S (List.length (scheduler c)).
Proof.
  destruct (silenced c) eqn:G.
  - rewrite (GenerateFacts.Generate_silenced _ _ G). cbn [scheduler].
    unfold Scheduler.Add. rewrite length_app. simpl. lia.
  - destruct (GenerateFacts.Generate_rearm cl c G) as (_ & E & _).
    rewrite E. unfold Scheduler.Add. rewrite length_app. simpl. lia.
Qed.

Lemma Write_scheduler (D offset value : Z) (c : t) :
  scheduler (Write D offset value c) = scheduler c.
Proof.
  destruct (RegisterFacts.Write_cases D offset value c)
    as [-> | [-> | [-> | [-> | ->]]]]; try reflexivity.
  unfold Write. now destruct (truthy _).
Qed.

Lemma skip_body_zero (w : Z) : skip_body w 0 = 0.
Proof. reflexivity. Qed.

Lemma skip_loop_zero (n : nat) (w : Z) : skip_loop n w 0 = 0.
Proof. induction n as [| n IH]; [reflexivity | exact IH]. Qed.

Lemma skip_loop_iter_any (n : nat) (w l : Z) :
  skip_loop n w l = Nat.iter n (skip_body w) l.
Proof.
  revert l. induction n as [| n IH]; intros l; [reflexivity|].
  rewrite Nat.iter_succ_r. apply IH.
Qed.

Lemma all_from_spec (P : Z -> bool) (n : nat) :
  forall lo : Z,
    all_from P lo n = true ->
    forall z, lo <= z < lo + Z.of_nat n -> P z = true.
Proof.
  induction n as [| n IH]; intros lo H z Hz; [lia|].
  simpl in H. apply andb_true_iff in H. destruct H as [H0 H1].
  destruct (Z.eq_dec z lo) as [-> | Ne]; [exact H0|].
  apply (IH (lo + 1) H1). lia.
Qed.

Lemma skip_body_live_check :
  all_from (fun l => (0 <? skip_body 0 l) && (skip_body 0 l <? 32768))
           1 (Z.to_nat 32767) &&
  all_from (fun l => (0 <? skip_body 1 l) && (skip_body 1 l <? 128))
           1 (Z.to_nat 127) = true.
Proof. vm_compute. reflexivity. Qed.

Lemma skip_body_live (w l : Z) :
  0 <= w <= 1 -> 0 < l < bound w -> 0 < skip_body w l < bound w.
Proof.
  intros Hw Hl.
  pose proof skip_body_live_check as C.
  apply andb_true_iff in C. destruct C as [C0 C1].
  assert (E : w = 0 \/ w = 1) by lia.
  destruct E as [-> | ->].
  - change (bound 0) with 32768 in *.
    pose proof (all_from_spec _ _ _ C0 l ltac:(lia)) as H.
    cbv beta in H. apply andb_true_iff in H. destruct H as [H0 H1].
    apply Z.ltb_lt in H0, H1. lia.
  - change (bound 1) with 128 in *.
    pose proof (all_from_spec _ _ _ C1 l ltac:(lia)) as H.
    cbv beta in H. apply andb_true_iff in H. destruct H as [H0 H1].
    apply Z.ltb_lt in H0, H1. lia.
Qed.

Lemma skip_loop_live (n : nat) (w l : Z) :
  0 <= w <= 1 -> 0 < l < bound w -> 0 < skip_loop n w l < bound w.
Proof.
  intros Hw. revert l. induction n as [| n IH]; intros l Hl; [exact Hl|].
  simpl. apply IH. now apply skip_body_live.
Qed.

Lemma live_bound (c : t) : live c = true <-> 0 < lfsr c < bound (width c).
Proof.
  unfold live, bound. rewrite andb_true_iff, !Z.ltb_lt. tauto.
Qed.

Lemma first_return_spec (fuel : nat) (w seed : Z) :
  forall l k p : Z,
    0 <= k ->
    l = Nat.iter (Z.to_nat k) (skip_body w) seed ->
    first_return fuel w seed l k = Some p ->
    Nat.iter (Z.to_nat p) (skip_body w) seed = seed /\
    forall n : Z, k < n < p -> Nat.iter (Z.to_nat n) (skip_body w) seed <> seed.
Proof.
  induction fuel as [| fuel IH]; intros l k p Hk Hl H; [discriminate|].
  simpl in H.
  assert (Hn : skip_body w l = Nat.iter (Z.to_nat (k + 1)) (skip_body w) seed).
  { rewrite Z2Nat.inj_add by lia. rewrite Nat.add_comm. simpl. now rewrite Hl. }
  destruct (Z.eqb_spec (skip_body w l) seed) as [E | N].
  - inversion H; subst p. split; [now rewrite <- Hn|].
    intros n Hlt. lia.
  - assert (Hk' : 0 <= k + 1) by lia.
    destruct (IH _ _ _ Hk' Hn H) as [Hp Hmin]. split; [exact Hp|].
    intros n Hlt.
    destruct (Z.eq_dec n (k + 1)) as [-> | Ne].
    + now rewrite <- Hn.
    + apply Hmin. lia.
Qed.

Lemma first_return_seeds :
  first_return (Z.to_nat 40000) 0 16384 16384 0 = Some 32767 /\
  first_return (Z.to_nat 40000) 1 64 64 0 = Some 127.
Proof.
  split; [ vm_cast_no_check (eq_refl (@Some Z 32767))
         | vm_cast_no_check (eq_refl (@Some Z 127)) ].
Qed.
End ChannelFacts.

Module ChannelBehaviour.
Import NoiseChannel Reference Behaviour.

Section WithDecrement.
Variable Decrement : Z.

(** X1.  Writing a byte [b] to offset 4 and reading offset 4 gives [b]
    back, whatever the channel held before. *)
Theorem Write_Read_frequency (b : Z) (c : t) :
  0 <= b < 256 -> fst (Read 4 (Write Decrement 4 b c)) = b.
Proof.
  intros Hb.
  cbn [Read Write fst frequency_ratio width frequency_shift].
  unfold u8. rewrite ChannelFacts.byte_repack, Z.mod_small by lia.
  reflexivity.
Qed.

(** X2.  Of a byte written to offset 5 only bit 6 reads back: a read of
    offset 5 gives [b & 0x40], whether or not the write triggered. *)
Theorem Write_Read_control (b : Z) (c : t) :
  fst (Read 5 (Write Decrement 5 b c)) = Z.land b 0x40.
Proof.
  unfold Write. change 64 with (2 ^ 6). change 128 with (2 ^ 7).
  rewrite !truthy_land_bit, land_bit by lia.
  destruct (Z.testbit b 7); cbn [Read fst length_enable];
    now destruct (Z.testbit b 6).
Qed.


(** X4.  The channel is never enabled while its DAC is off: if that
    holds of a channel, it holds after any sequence of calls. *)
Theorem enabled_needs_dac (ks : list Calls.Call) (c : t) :
  (enabled c = true -> dac_enable c = true) ->
  enabled (Calls.run Decrement ks c) = true ->
  dac_enable (Calls.run Decrement ks c) = true.
Proof.
  intros H.
  apply (ChannelFacts.run_invariant Decrement
           (fun c => enabled c = true -> dac_enable c = true)
           (fun _ => true)); [| now apply forallb_forall | exact H].
  clear. intros k c _ Hc.
  destruct k as [| cl | offset | offset value]; cbn [Calls.call].
  - cbn [Reset enabled]. discriminate.
  - rewrite ChannelFacts.Generate_enabled.
    destruct (GenerateFacts.Generate_frame cl c) as (_ & _ & _ & _ & _ & _ & Ed).
    rewrite Ed. destruct (silenced c); [discriminate | exact Hc].
  - now rewrite RegisterFacts.Read_state.
  - destruct (RegisterFacts.Write_cases Decrement offset value c)
      as [-> | [-> | [-> | [-> | ->]]]]; try exact Hc.
    + cbn [Write enabled dac_enable].
      destruct (negb (Z.shiftr value 3 =? 0)); [reflexivity | discriminate].
    + unfold Write. destruct (truthy (Z.land value 128));
        cbn [enabled dac_enable]; [|exact Hc].
      destruct (dac_enable c); [reflexivity | exact Hc].
Qed.

(** X5.  Every [Reset] and every firing of [Generate] submits exactly one
    event to the scheduler, and reads and writes submit none: after a
    sequence of calls the scheduler has received as many more events as
    the sequence has [Reset] and [Generate] calls. *)
Theorem one_event_per_firing (ks : list Calls.Call) (c : t) :
  List.length (scheduler (Calls.run Decrement ks c)) =
  (List.length (scheduler c) + List.length (filter arms ks))%nat.
Proof.
  revert c. induction ks as [| k ks IH]; intros c; [simpl; lia|].
  simpl Calls.run. rewrite IH.
  destruct k as [| cl | offset | offset value]; cbn [Calls.call filter arms].
  - cbn [Reset scheduler]. unfold Scheduler.Add. rewrite length_app. simpl. lia.
  - rewrite ChannelFacts.Generate_scheduler_length. simpl. lia.
  - rewrite RegisterFacts.Read_state. lia.
  - rewrite ChannelFacts.Write_scheduler. lia.
Qed.

(** X6.  A register that holds 0 stays at 0 until a trigger: after any
    sequence of calls without a write to offset 5 that has bit 7 set, the
    register is still 0. *)
Theorem zero_register_stays (ks : list Calls.Call) (c : t) :
  lfsr c = 0 ->
  forallb no_trigger ks = true ->
  lfsr (Calls.run Decrement ks c) = 0.
Proof.
  intros Hz Hks.
  apply (ChannelFacts.run_invariant Decrement (fun c => lfsr c = 0) no_trigger);
    [| exact Hks | exact Hz].
  clear. intros k c Hk Hc.
  destruct k as [| cl | offset | offset value]; cbn [Calls.call].
  - reflexivity.
  - destruct (silenced c) eqn:G.
    + now rewrite (GenerateFacts.Generate_silenced _ _ G).
    + rewrite (GenerateFacts.Generate_lfsr _ _ G), Hc.
      rewrite ChannelFacts.skip_body_zero. apply ChannelFacts.skip_loop_zero.
  - now rewrite RegisterFacts.Read_state.
  - destruct (RegisterFacts.Write_cases Decrement offset value c)
      as [-> | [-> | [-> | [-> | ->]]]]; try exact Hc.
    unfold Write. change 128 with (2 ^ 7). rewrite truthy_land_bit by lia.
    cbn [no_trigger] in Hk. apply negb_true_iff in Hk. rewrite Hk. exact Hc.
Qed.
End WithDecrement.

(** X7.  One pass of the loop body gives 0 from exactly two registers:
    from 0, and from twice the tap mask plus one ([0xC001] in 15-bit mode,
    [0xC1] in 7-bit mode). *)
Theorem skip_body_zero_iff (w l : Z) :
  0 <= w <= 1 -> 0 <= l < 65536 ->
  (skip_body w l = 0 <->
   l = 0 \/ l = 2 * nth (Z.to_nat w) lfsr_xor 0 + 1).
Proof.
  intros Hw Hl.
  assert (C : forall w', 0 <= w' <= 1 ->
               all_from (fun l => Bool.eqb (skip_body w' l =? 0)
                                   ((l =? 0) ||
                                    (l =? 2 * nth (Z.to_nat w') lfsr_xor 0 + 1)))
                        0 (Z.to_nat 65536) = true).
  { intros w' Hw'. assert (E : w' = 0 \/ w' = 1) by lia.
    destruct E as [-> | ->]; vm_compute; reflexivity. }
  pose proof (ChannelFacts.all_from_spec _ _ _ (C w Hw) l ltac:(lia)) as Cl.
  cbv beta in Cl.
  apply eqb_prop in Cl.
  rewrite <- Z.eqb_eq, Cl, orb_true_iff, !Z.eqb_eq. reflexivity.
Qed.
End ChannelBehaviour.

Module TriggerFacts.
Import NoiseChannel Reference Behaviour.

Lemma Write_trigger_live (D value : Z) (c : t) :
  wf c = true -> Z.testbit value 7 = true -> live (Write D 5 value c) = true.
Proof.
  intros W Hbit. apply WfFacts.wf_ranges in W.
  destruct W as (_ & _ & _ & _ & Hw & _).
  apply ChannelFacts.live_bound.
  unfold Write. change 128 with (2 ^ 7). rewrite truthy_land_bit, Hbit by lia.
  cbn [lfsr width].
  assert (E : width c = 0 \/ width c = 1) by lia.
  destruct E as [-> | ->]; vm_compute; split; reflexivity.
Qed.

Lemma Generate_live (cl : Z) (c : t) :
  wf c = true -> live c = true -> live (Generate cl c) = true.
Proof.
  intros W L. apply WfFacts.wf_ranges in W.
  destruct W as (_ & _ & _ & _ & Hw & _).
  apply ChannelFacts.live_bound in L. apply ChannelFacts.live_bound.
  destruct (GenerateFacts.Generate_frame cl c) as (_ & _ & _ & _ & Ew & _).
  rewrite Ew.
  destruct (silenced c) eqn:G.
  - now rewrite (GenerateFacts.Generate_silenced _ _ G).
  - rewrite (GenerateFacts.Generate_lfsr _ _ G).
    apply ChannelFacts.skip_loop_live; [exact Hw|].
    now apply ChannelFacts.skip_body_live.
Qed.

Lemma Write_live (D offset value : Z) (c : t) :
  wf c = true -> offset <> 4 -> live c = true ->
  live (Write D offset value c) = true.
Proof.
  intros W N4 L.
  destruct (RegisterFacts.Write_cases D offset value c)
    as [-> | [-> | [-> | [-> | ->]]]]; try exact L; try congruence.
  destruct (Z.testbit value 7) eqn:Hbit.
  - now apply Write_trigger_live.
  - unfold Write. change 128 with (2 ^ 7).
    rewrite truthy_land_bit, Hbit by lia. exact L.
Qed.
End TriggerFacts.

Module GeneratorBehaviour.
Import NoiseChannel Reference Behaviour.

(** X8.  After a trigger the register never reaches 0 and never leaves
    the width in use: this holds after the triggering write and after any
    further firings, reads and byte writes, as long as none of them is a
    [Reset] or a write to offset 4. *)
Theorem triggered_register_never_zero
    (Decrement value : Z) (ks : list Calls.Call) (c : t) :
  wf c = true ->
  0 <= value < 256 ->
  Z.testbit value 7 = true ->
  forallb Calls.byte_args ks = true ->
  forallb keeps_width ks = true ->
  let c' := Calls.run Decrement ks (Write Decrement 5 value c) in
  lfsr c' <> 0 /\ 0 < lfsr c' < bound (width c').
Proof.
  intros W Hv Hbit Hb Hk c'.
  assert (P : wf c' = true /\ live c' = true).
  { apply (ChannelFacts.run_invariant Decrement
             (fun c => wf c = true /\ live c = true)
             (fun k => Calls.byte_args k && keeps_width k)).
    - clear. intros k c Hk [W L]. apply andb_true_iff in Hk.
      destruct Hk as [Hb Hk].
      destruct k as [| cl | offset | offset value]; cbn [Calls.call].
      + discriminate.
      + split; [now apply GenerateFacts.Generate_wf
               | now apply TriggerFacts.Generate_live].
      + now rewrite RegisterFacts.Read_state.
      + cbn [Calls.byte_args] in Hb. apply andb_true_iff in Hb.
        destruct Hb as [H0 H1]. apply Z.leb_le in H0. apply Z.ltb_lt in H1.
        split; [apply RegisterFacts.Write_wf; [lia | exact W]|].
        apply TriggerFacts.Write_live; [exact W | | exact L].
        intros ->. discriminate.
    - apply forallb_forall. intros k Hin.
      rewrite forallb_forall in Hb, Hk. now rewrite Hb, Hk.
    - split; [apply RegisterFacts.Write_wf; [lia | exact W]
             | now apply TriggerFacts.Write_trigger_live]. }
  destruct P as [_ L]. apply ChannelFacts.live_bound in L. split; lia.
Qed.

(** X9.  The sequence a trigger starts is periodic with the full period
    of the width: from the seed the code loads, the loop body brings the
    register back to the seed after exactly [2^15 - 1] passes in 15-bit
    mode and [2^7 - 1] passes in 7-bit mode, and after no smaller number
    of passes. *)
Theorem trigger_sequence_period (w : Z) :
  0 <= w <= 1 ->
  let seed := nth (Z.to_nat w) lfsr_init 0 in
  let period := Z.to_nat (bound w - 1) in
  skip_loop period w seed = seed /\
  forall n : nat, (0 < n < period)%nat -> skip_loop n w seed <> seed.
Proof.
  intros Hw.
  destruct ChannelFacts.first_return_seeds as [F0 F1].
  assert (E : w = 0 \/ w = 1) by lia.
  destruct E as [-> | ->]; intros seed period.
  - change seed with 16384. change period with (Z.to_nat 32767).
    destruct (ChannelFacts.first_return_spec _ 0 16384 16384 0 32767
                ltac:(lia) eq_refl F0) as [Hp Hmin].
    split.
    + rewrite ChannelFacts.skip_loop_iter_any. exact Hp.
    + intros n Hn. rewrite ChannelFacts.skip_loop_iter_any.
      rewrite <- (Nat2Z.id n). apply Hmin. lia.
  - change seed with 64. change period with (Z.to_nat 127).
    destruct (ChannelFacts.first_return_spec _ 1 64 64 0 127
                ltac:(lia) eq_refl F1) as [Hp Hmin].
    split.
    + rewrite ChannelFacts.skip_loop_iter_any. exact Hp.
    + intros n Hn. rewrite ChannelFacts.skip_loop_iter_any.
      rewrite <- (Nat2Z.id n). apply Hmin. lia.
Qed.

(** X10.  A firing that the length gate does not silence re-arms the
    event after the longer of the channel's interval and the mixer's,
    less the overshoot; and the steps folded into the next firing never
    take longer than that interval, and fall short of it by less than one
    step: [(skip_count + 1) * noise_interval <= interval <
    (skip_count + 2) * noise_interval]. *)
Theorem Generate_rate_matching (c : t) (cycles_late : Z) :
  wf c = true ->
  0 <= cycles_late <= INT_MAX ->
  silenced c = false ->
  let noise_interval :=
    GetSynthesisInterval (frequency_ratio c) (frequency_shift c) in
  let mixer_interval := BIAS.GetSampleInterval (bias c) in
  let c' := Generate cycles_late c in
  exists d : Z,
    scheduler c' =
      scheduler c ++ [ {| Scheduler.delay := d;
                          Scheduler.callback := Scheduler.event_cb |} ] /\
    d + cycles_late = Z.max noise_interval mixer_interval /\
    (skip_count c' + 1) * noise_interval <= d + cycles_late
      < (skip_count c' + 2) * noise_interval.
Proof.
  intros W Hcl G noise_interval mixer_interval c'.
  apply WfFacts.wf_ranges in W.
  destruct W as (Hb & _ & Hfs & Hfr & _).
  pose proof (IntervalFacts.GetSynthesisInterval_bounds _ _ Hfr Hfs) as Hn.
  pose proof (IntervalFacts.GetSampleInterval_bounds _ Hb) as Hm.
  rewrite IntervalFacts.GetSynthesisInterval_slowest in Hn.
  fold noise_interval in Hn. fold mixer_interval in Hm.
  destruct (GenerateFacts.Generate_rearm cycles_late c G) as (Ek & Es & _).
  fold noise_interval mixer_interval c' in Ek, Es.
  unfold INT_MAX in Hcl.
  destruct (Z.ltb_spec noise_interval mixer_interval) as [Lt | Ge].
  - exists (mixer_interval - cycles_late).
    rewrite int32_small in Es by (unfold INT_MAX; lia).
    split; [exact Es|]. split; [lia|].
    rewrite Ek, Z.quot_div_nonneg by lia.
    pose proof (Z.mul_div_le mixer_interval noise_interval ltac:(lia)).
    pose proof (Z.mul_succ_div_gt mixer_interval noise_interval ltac:(lia)).
    nia.
  - exists (noise_interval - cycles_late).
    rewrite int32_small in Es by (unfold INT_MAX; lia).
    split; [exact Es|]. split; [lia|].
    rewrite Ek. lia.
Qed.

(** X11.  On a well-formed channel the sample a firing leaves is at most
    eight times the envelope volume in magnitude and fits a signed 8-bit
    integer. *)
Theorem Generate_sample_int8 (c : t) (cycles_late : Z) :
  wf c = true ->
  let volume := Envelope.current_volume (Sequencer.envelope (sequencer c)) in
  let c' := Generate cycles_late c in
  - (8 * volume) <= sample c' <= 8 * volume /\
  APU.int8 (sample c') = true.
Proof.
  intros W volume c'. apply WfFacts.wf_ranges in W.
  destruct W as (_ & He & _). apply WfFacts.Envelope_wf_ranges in He.
  fold volume in He.
  assert (B : - (8 * volume) <= sample c' <= 8 * volume).
  { unfold c'. destruct (silenced c) eqn:G.
    - rewrite (GenerateFacts.Generate_silenced _ _ G). cbn [sample]. lia.
    - rewrite (GenerateFacts.Generate_sample _ _ G). fold volume.
      destruct (negb (dac_enable c)); [lia|].
      destruct (truthy _); lia. }
  split; [exact B|].
  unfold APU.int8. apply andb_true_iff. split; [apply Z.leb_le | apply Z.leb_le]; lia.
Qed.

(** X12.  A firing changes nothing the bus can read: every offset reads
    the same after [Generate] as before. *)
Theorem Generate_keeps_registers (offset cycles_late : Z) (c : t) :
  fst (Read offset (Generate cycles_late c)) = fst (Read offset c).
Proof.
  destruct (GenerateFacts.Generate_frame cycles_late c)
    as (_ & Es & Efs & Efr & Ew & El & _).
  unfold Read. rewrite Es, Efs, Efr, Ew, El.
  destruct offset as [|p|p]; try reflexivity.
  do 3 (try destruct p as [p|p|]); reflexivity.
Qed.
End GeneratorBehaviour.

(** ** Further behaviour of the mixer *)

Module LatchFacts.
Import Latch.

Lemma assign_length {A : Type} (i : nat) (v : A) (l : list A) :
  List.length (assign i v l) = List.length l.
Proof.
  revert i. induction l as [| x l IH]; intros i; [reflexivity|].
  destruct i; simpl; [reflexivity | now rewrite IH].
Qed.

Lemma assign_nth_same {A : Type} (i : nat) (v d : A) (l : list A) :
  (i < List.length l)%nat -> nth i (assign i v l) d = v.
Proof.
  revert i. induction l as [| x l IH]; intros i H; [simpl in H; lia|].
  destruct i; simpl; [reflexivity|]. apply IH. simpl in H. lia.
Qed.

Lemma assign_nth_other {A : Type} (i j : nat) (v d : A) (l : list A) :
  i <> j -> nth j (assign i v l) d = nth j l d.
Proof.
  revert i j. induction l as [| x l IH]; intros i j H; [now destruct j|].
  destruct i, j; simpl; try reflexivity; [congruence|].
  apply IH. congruence.
Qed.

Lemma assign_assign {A : Type} (i : nat) (u v : A) (l : list A) :
  assign i v (assign i u l) = assign i v l.
Proof.
  revert i. induction l as [| x l IH]; intros i; [reflexivity|].
  destruct i; simpl; [reflexivity | now rewrite IH].
Qed.

Lemma assign_nth {A : Type} (i : nat) (d : A) (l : list A) :
  (i < List.length l)%nat -> assign i (nth i l d) l = l.
Proof.
  revert i. induction l as [| x l IH]; intros i H; [reflexivity|].
  destruct i; simpl; [reflexivity|]. rewrite IH; [reflexivity|].
  simpl in H. lia.
Qed.

Section WithEmptyRead.
Variable empty_read : Z.

Lemma latch_loop_fifo (n : nat) :
  forall (id : Z) (latch : list Z) (f : FIFO.t) (d : DMA.t),
    snd (fst (latch_loop empty_read n id latch f d)) = skipn n f.
Proof.
  induction n as [| n IH]; intros id latch f d; [reflexivity|].
  simpl latch_loop. destruct f as [| x f]; simpl FIFO.Read; cbv iota beta.
  - rewrite IH. now destruct n.
  - now rewrite IH.
Qed.

Lemma latch_loop_latch (n : nat) :
  forall (id : Z) (latch : list Z) (f : FIFO.t) (d : DMA.t),
    fst (fst (latch_loop empty_read (S n) id latch f d)) =
    assign (Z.to_nat id) (nth n f empty_read) latch.
Proof.
  induction n as [| n IH]; intros id latch f d.
  - simpl. now destruct f.
  - change (latch_loop empty_read (S (S n)) id latch f d)
      with (let '(v, f1) := FIFO.Read empty_read f in
            latch_loop empty_read (S n) id (assign (Z.to_nat id) v latch) f1
              (if FIFO.Count f1 <=? 16
               then DMA.Request (if id =? 0 then DMA.FIFO0 else DMA.FIFO1) d
               else d)).
    destruct f as [| x f]; simpl FIFO.Read; cbv iota beta;
      rewrite IH, assign_assign; [now destruct n | reflexivity].
Qed.

Lemma latch_loop_dma (n : nat) :
  forall (id : Z) (latch : list Z) (f : FIFO.t) (d : DMA.t),
    snd (latch_loop empty_read n id latch f d) =
    d ++ repeat (if id =? 0 then DMA.FIFO0 else DMA.FIFO1)
                (Z.to_nat (requests (Z.of_nat n) (FIFO.Count f))).
Proof.
  induction n as [| n IH]; intros id latch f d.
  - simpl. unfold requests.
    replace (Z.max 0 (Z.min 0 (0 - FIFO.Count f + 17))) with 0 by lia.
    simpl. now rewrite app_nil_r.
  - simpl latch_loop.
    set (occ := if id =? 0 then DMA.FIFO0 else DMA.FIFO1).
    assert (Hc : FIFO.Count (snd (FIFO.Read empty_read f)) =
                 Z.max 0 (FIFO.Count f - 1)).
    { unfold FIFO.Count. destruct f as [| x f]; simpl snd; simpl List.length; lia. }
    destruct (FIFO.Read empty_read f) as [v f1]. simpl snd in Hc.
    rewrite IH. fold occ. unfold requests. unfold FIFO.Count in *.
    destruct (Z.leb_spec (Z.of_nat (List.length f1)) 16) as [Le | Gt].
    + unfold DMA.Request. rewrite <- app_assoc. f_equal.
      change ([occ] ++ ?r) with (occ :: r).
      replace (Z.to_nat (Z.max 0 (Z.min (Z.of_nat (S n))
                 (Z.of_nat (S n) - Z.of_nat (List.length f) + 17))))
        with (S (Z.to_nat (Z.max 0 (Z.min (Z.of_nat n)
                 (Z.of_nat n - Z.of_nat (List.length f1) + 17))))) by lia.
      reflexivity.
    + f_equal. f_equal. lia.
Qed.
End WithEmptyRead.
End LatchFacts.

Module MixerFacts.
Import APU Latch.

Lemma Tick_frame_parts (a : APU.t) :
  latch (Tick a) = latch a /\
  psg1 (Tick a) = psg1 a /\ psg2 (Tick a) = psg2 a /\ psg3 (Tick a) = psg3 a /\
  bias (Tick a) = bias a /\
  audio_dev_rate (Tick a) = audio_dev_rate a /\
  buffer (Tick a) = buffer a.
Proof. unfold Tick. cbn. tauto. Qed.

Lemma Tick_written (a : APU.t) :
  Resampler.written (resampler (Tick a)) =
  Resampler.written (resampler a) ++
  [ {| StereoSample.left :=
         mix (nth 0 (latch a) 0)
             (sample (psg1 a) + sample (psg2 a) + sample (psg3 a));
       StereoSample.right :=
         mix (nth 1 (latch a) 0)
             (sample (psg1 a) + sample (psg2 a) + sample (psg3 a)) |} ].
Proof.
  unfold Tick. cbn [resampler Resampler.Write Resampler.written].
  destruct (negb _); reflexivity.
Qed.

Lemma forallb_assign (P : Z -> bool) (i : nat) (v : Z) (l : list Z) :
  P v = true -> forallb P l = true -> forallb P (assign i v l) = true.
Proof.
  intros Hv. revert i. induction l as [| x l IH]; intros i H; [reflexivity|].
  simpl in H. apply andb_true_iff in H. destruct H as [Hx Hl].
  destruct i; simpl; apply andb_true_iff; split; auto.
Qed.

Lemma wf_parts (a : APU.t) :
  wf a = true <->
  BIAS.wf (bias a) = true /\
  List.length (latch a) = 2%nat /\
  forallb int8 (latch a) = true /\
  int8 (sample (psg1 a)) = true /\
  int8 (sample (psg2 a)) = true /\
  int8 (sample (psg3 a)) = true.
Proof.
  unfold wf. rewrite !andb_true_iff, Nat.eqb_eq. tauto.
Qed.

Section WithEmptyRead.
Variable empty_read : Z.

Lemma LatchFIFO_parts (id times : Z) (a : APU.t) (m : Bus) :
  let f := nth (Z.to_nat id) (fifo m) [] in
  let L := latch_loop empty_read (Z.to_nat times) id (latch a) f (dma m) in
  let r := LatchFIFO empty_read id times a m in
  latch (fst r) = fst (fst L) /\
  fifo (snd r) = assign (Z.to_nat id) (snd (fst L)) (fifo m) /\
  dma (snd r) = snd L /\
  psg1 (fst r) = psg1 a /\ psg2 (fst r) = psg2 a /\ psg3 (fst r) = psg3 a /\
  bias (fst r) = bias a /\ resampler (fst r) = resampler a /\
  countdown (fst r) = countdown a /\ resolution_old (fst r) = resolution_old a.
Proof.
  intros f L r. unfold r, LatchFIFO. fold f. fold L.
  destruct L as [[latch' f'] d']. cbn. tauto.
Qed.

Lemma latch_loop_add (n1 n2 : nat) :
  forall (id : Z) (latch : list Z) (f : FIFO.t) (d : DMA.t),
    latch_loop empty_read (n1 + n2) id latch f d =
    let '(latch1, f1, d1) := latch_loop empty_read n1 id latch f d in
    latch_loop empty_read n2 id latch1 f1 d1.
Proof.
  induction n1 as [| n1 IH]; intros id latch f d; [reflexivity|].
  simpl. destruct (FIFO.Read empty_read f) as [v f1]. apply IH.
Qed.
End WithEmptyRead.
End MixerFacts.

Module MixerBehaviour.
Import APU Latch.

Section WithEmptyRead.
Variable empty_read : Z.

(** X13.  [LatchFIFO(id, times)] with [times >= 1] leaves in latch [id]
    the byte [times - 1] places behind the oldest of FIFO [id] (what an
    empty FIFO reads as, if there are not that many), removes the [times]
    oldest bytes from that FIFO, and leaves the other latch and the other
    FIFO alone. *)
Theorem LatchFIFO_latches (id times : Z) (a : APU.t) (m : Bus) :
  0 <= id <= 1 ->
  1 <= times ->
  List.length (latch a) = 2%nat ->
  List.length (fifo m) = 2%nat ->
  let f := nth (Z.to_nat id) (fifo m) [] in
  let other := Z.to_nat (1 - id) in
  let r := LatchFIFO empty_read id times a m in
  nth (Z.to_nat id) (latch (fst r)) 0 = nth (Z.to_nat (times - 1)) f empty_read /\
  nth other (latch (fst r)) 0 = nth other (latch a) 0 /\
  nth (Z.to_nat id) (fifo (snd r)) [] = skipn (Z.to_nat times) f /\
  nth other (fifo (snd r)) [] = nth other (fifo m) [].
Proof.
  intros Hid Ht Hl Hf f other r.
  destruct (MixerFacts.LatchFIFO_parts empty_read id times a m)
    as (El & Ef & _).
  fold f r in El, Ef. rewrite El, Ef.
  rewrite LatchFacts.latch_loop_fifo.
  replace (Z.to_nat times) with (S (Z.to_nat (times - 1))) at 1 2 by lia.
  rewrite LatchFacts.latch_loop_latch.
  assert (Z.to_nat id <> other) by (unfold other; lia).
  rewrite !LatchFacts.assign_nth_same, !LatchFacts.assign_nth_other by lia.
  repeat split.
Qed.

(** X14.  [LatchFIFO] raises one request per read that leaves at most 16
    bytes in the FIFO, all for the occasion of that FIFO: none while more
    than 16 bytes remain after the call, at least one otherwise. *)
Theorem LatchFIFO_requests (id times : Z) (a : APU.t) (m : Bus) :
  1 <= times ->
  let f := nth (Z.to_nat id) (fifo m) [] in
  let occasion := if id =? 0 then DMA.FIFO0 else DMA.FIFO1 in
  let r := LatchFIFO empty_read id times a m in
  dma (snd r) =
    dma m ++ repeat occasion (Z.to_nat (requests times (FIFO.Count f))) /\
  (16 < FIFO.Count f - times -> dma (snd r) = dma m) /\
  (FIFO.Count f - times <= 16 -> dma (snd r) <> dma m).
Proof.
  intros Ht f occasion r.
  destruct (MixerFacts.LatchFIFO_parts empty_read id times a m)
    as (_ & _ & Ed & _).
  fold f r in Ed.
  assert (E : dma (snd r) =
              dma m ++ repeat occasion (Z.to_nat (requests times (FIFO.Count f)))).
  { rewrite Ed, LatchFacts.latch_loop_dma, Z2Nat.id by lia. reflexivity. }
  split; [exact E|]. split.
  - intros Hmany. rewrite E. unfold requests.
    replace (Z.max 0 (Z.min times (times - FIFO.Count f + 17))) with 0 by lia.
    simpl. apply app_nil_r.
  - intros Hfew Heq. rewrite E in Heq.
    apply (f_equal (@List.length DMA.Occasion)) in Heq.
    rewrite length_app, repeat_length in Heq. unfold requests in Heq. lia.
Qed.

(** X15.  Latching [n1 + n2] times is latching [n1] times and then [n2]
    times, and latching 0 times changes nothing. *)
Theorem LatchFIFO_additive (id n1 n2 : Z) (a : APU.t) (m : Bus) :
  (Z.to_nat id < List.length (fifo m))%nat ->
  0 <= n1 -> 0 <= n2 ->
  LatchFIFO empty_read id 0 a m = (a, m) /\
  LatchFIFO empty_read id (n1 + n2) a m =
    LatchFIFO empty_read id n2 (fst (LatchFIFO empty_read id n1 a m))
                                (snd (LatchFIFO empty_read id n1 a m)).
Proof.
  intros Hid H1 H2. split.
  - unfold LatchFIFO. change (Z.to_nat 0) with 0%nat.
    cbn [latch_loop]. cbv iota beta.
    rewrite LatchFacts.assign_nth by exact Hid.
    now destruct a, m.
  - unfold LatchFIFO.
    rewrite Z2Nat.inj_add, MixerFacts.latch_loop_add by lia.
    destruct (latch_loop empty_read (Z.to_nat n1) id (latch a)
                (nth (Z.to_nat id) (fifo m) []) (dma m)) as [[l1 f1] d1].
    cbn [fst snd latch fifo dma psg1 psg2 psg3 bias resolution_old countdown
         audio_dev_rate resampler buffer].
    rewrite LatchFacts.assign_nth_same by exact Hid.
    destruct (latch_loop empty_read (Z.to_nat n2) id l1 f1 d1) as [[l2 f2] d2].
    now rewrite LatchFacts.assign_assign.
Qed.

(** X16.  A byte latched from a FIFO is what the next tick mixes: after
    [LatchFIFO(id, 1)] on a FIFO whose oldest byte is [x], [Tick] writes a
    frame whose channel [id] is exactly [x/256 + S/512], [S] being the sum
    of the tone-channel samples. *)
Theorem LatchFIFO_then_Tick (id x : Z) (rest : FIFO.t) (a : APU.t) (m : Bus) :
  wf a = true ->
  0 <= id <= 1 ->
  nth (Z.to_nat id) (fifo m) [] = x :: rest ->
  int8 x = true ->
  let a' := fst (LatchFIFO empty_read id 1 a m) in
  let S := sample (psg1 a) + sample (psg2 a) + sample (psg3 a) in
  wf a' = true /\
  exists frame : StereoSample.t,
    Resampler.written (resampler (Tick a')) =
      Resampler.written (resampler a) ++ [frame] /\
    Float.denotes
      (if id =? 0 then StereoSample.left frame else StereoSample.right frame)
      (inject_Z x / 256 + inject_Z S / 512)%Q.
Proof.
  intros W Hid Hf Hx a' S.
  destruct (MixerFacts.LatchFIFO_parts empty_read id 1 a m)
    as (El & _ & _ & E1 & E2 & E3 & Eb & Er & _).
  fold a' in El, E1, E2, E3, Eb, Er.
  change (Z.to_nat 1) with 1%nat in El.
  rewrite LatchFacts.latch_loop_latch, Hf in El. simpl nth in El.
  pose proof (TickFacts.psg_range a W) as HS. fold S in HS.
  destruct (proj1 (MixerFacts.wf_parts a) W) as (Wb & Hlen & Wl & W1 & W2 & W3).
  assert (W' : wf a' = true).
  { apply MixerFacts.wf_parts.
    rewrite El, E1, E2, E3, Eb, LatchFacts.assign_length.
    repeat split; try assumption.
    now apply MixerFacts.forallb_assign. }
  split; [exact W'|].
  destruct (TickFacts.latch_range a' W') as [H0 H1].
  eexists. split.
  - rewrite MixerFacts.Tick_written, Er. reflexivity.
  - rewrite E1, E2, E3. fold S.
    pose proof (TickFacts.int8_range x Hx) as Rx.
    assert (E : id = 0 \/ id = 1) by lia.
    destruct E as [-> | ->]; cbn [Z.eqb StereoSample.left StereoSample.right];
      rewrite El, LatchFacts.assign_nth_same by (rewrite Hlen; simpl; lia);
      now apply TickFacts.mix_denotes.
Qed.
End WithEmptyRead.

(** X17.  [Tick] brings [resolution_old] up to the bias resolution, and
    configures the resampler only when the two differed: then for
    [32768 << resolution] samples per second in and the device's rate out.
    A second tick right after never configures it again. *)
Theorem Tick_tracks_resolution (a : APU.t) :
  let a' := Tick a in
  let resolution := BIAS.resolution (bias a) in
  resolution_old a' = resolution /\
  (resolution_old a = resolution ->
     Resampler.input_rate (resampler a') = Resampler.input_rate (resampler a) /\
     Resampler.output_rate (resampler a') = Resampler.output_rate (resampler a)) /\
  (resolution_old a <> resolution ->
     Resampler.input_rate (resampler a') = Z.shiftl 32768 resolution /\
     Resampler.output_rate (resampler a') = audio_dev_rate a) /\
  Resampler.input_rate (resampler (Tick a')) = Resampler.input_rate (resampler a') /\
  Resampler.output_rate (resampler (Tick a')) = Resampler.output_rate (resampler a').
Proof.
  intros a' resolution.
  assert (E : resolution_old a' = resolution).
  { unfold a', Tick, resolution. cbn [resolution_old].
    destruct (Z.eqb_spec (BIAS.resolution (bias a)) (resolution_old a));
      cbn [negb]; congruence. }
  assert (R : forall b : APU.t,
             resolution_old b = BIAS.resolution (bias b) ->
             Resampler.input_rate (resampler (Tick b)) =
               Resampler.input_rate (resampler b) /\
             Resampler.output_rate (resampler (Tick b)) =
               Resampler.output_rate (resampler b)).
  { intros b Hb. unfold Tick. cbn [resampler]. rewrite Hb, Z.eqb_refl.
    cbn [negb]. split; reflexivity. }
  split; [exact E|]. split; [|split].
  - intros H. apply R. exact H.
  - intros H. unfold a', Tick. cbn [resampler]. fold resolution.
    destruct (Z.eqb_spec resolution (resolution_old a)); [congruence|].
    cbn [negb]. split; reflexivity.
  - apply R. rewrite E. unfold a', resolution.
    now destruct (MixerFacts.Tick_frame_parts a) as (_ & _ & _ & _ & -> & _).
Qed.

(** X18.  [n] ticks in a row, with nothing else touching the mixer, write
    [n] copies of the same frame and advance the countdown by [n] times
    [512 >> resolution]. *)
Theorem Tick_repeated (n : nat) (a : APU.t) :
  let S := sample (psg1 a) + sample (psg2 a) + sample (psg3 a) in
  let frame :=
    {| StereoSample.left := mix (nth 0 (latch a) 0) S;
       StereoSample.right := mix (nth 1 (latch a) 0) S |} in
  Resampler.written (resampler (Nat.iter n Tick a)) =
    Resampler.written (resampler a) ++ repeat frame n /\
  countdown (Nat.iter n Tick a) =
    countdown a + Z.of_nat n * Z.shiftr 512 (BIAS.resolution (bias a)).
Proof.
  intros S frame.
  assert (I : latch (Nat.iter n Tick a) = latch a /\
              psg1 (Nat.iter n Tick a) = psg1 a /\
              psg2 (Nat.iter n Tick a) = psg2 a /\
              psg3 (Nat.iter n Tick a) = psg3 a /\
              bias (Nat.iter n Tick a) = bias a /\
              Resampler.written (resampler (Nat.iter n Tick a)) =
                Resampler.written (resampler a) ++ repeat frame n /\
              countdown (Nat.iter n Tick a) =
                countdown a + Z.of_nat n * Z.shiftr 512 (BIAS.resolution (bias a))).
  { induction n as [| n IH].
    - simpl. rewrite app_nil_r. repeat split; lia.
    - destruct IH as (Il & I1 & I2 & I3 & Ib & Iw & Ic).
      rewrite !Nat.iter_succ.
      destruct (MixerFacts.Tick_frame_parts (Nat.iter n Tick a))
        as (El & E1 & E2 & E3 & Eb & _).
      rewrite El, E1, E2, E3, Eb, MixerFacts.Tick_written.
      rewrite Il, I1, I2, I3, Iw.
      repeat split; try assumption.
      + rewrite <- app_assoc. f_equal. fold S. fold frame.
        change ([frame]) with (repeat frame 1).
        rewrite <- repeat_app. f_equal. lia.
      + unfold Tick at 1. cbn [countdown]. rewrite Ic, Ib. lia. }
  destruct I as (_ & _ & _ & _ & _ & Iw & Ic). split; assumption.
Qed.

(** X19.  With 8-bit latches and samples the frame [Tick] writes is
    finite and both channels lie between -5/4 and 5/4. *)
Theorem Tick_frame_bounds (a : APU.t) :
  wf a = true ->
  exists frame : StereoSample.t,
    Resampler.written (resampler (Tick a)) =
      Resampler.written (resampler a) ++ [frame] /\
    Float.is_finite (StereoSample.left frame) = true /\
    Float.is_finite (StereoSample.right frame) = true /\
    (- (5 # 4) <= Float.to_Q (StereoSample.left frame) <= 5 # 4)%Q /\
    (- (5 # 4) <= Float.to_Q (StereoSample.right frame) <= 5 # 4)%Q.
Proof.
  intros W.
  destruct (TickFacts.latch_range a W) as [H0 H1].
  pose proof (TickFacts.psg_range a W) as HS.
  eexists. split; [apply MixerFacts.Tick_written|].
  cbn [StereoSample.left StereoSample.right].
  destruct (TickFacts.mix_denotes _ _ H0 HS) as [F0 Q0].
  destruct (TickFacts.mix_denotes _ _ H1 HS) as [F1 Q1].
  assert (B : forall l s : Z,
             -128 <= l <= 127 -> -384 <= s <= 381 ->
             (- (5 # 4) <= inject_Z l / 256 + inject_Z s / 512 <= 5 # 4)%Q).
  { intros l s [Hl1 Hl2] [Hs1 Hs2].
    rewrite Zle_Qle in Hl1, Hl2, Hs1, Hs2.
    change (inject_Z (-128)) with (-128 # 1)%Q in Hl1.
    change (inject_Z 127) with (127 # 1)%Q in Hl2.
    change (inject_Z (-384)) with (-384 # 1)%Q in Hs1.
    change (inject_Z 381) with (381 # 1)%Q in Hs2.
    set (x := inject_Z l) in *. set (y := inject_Z s) in *.
    unfold Qdiv.
    change (/ 256)%Q with (1 # 256)%Q. change (/ 512)%Q with (1 # 512)%Q.
    split; lra. }
  split; [exact F0|]. split; [exact F1|].
  rewrite Q0, Q1. split; apply B; assumption.
Qed.
End MixerBehaviour.

(** ** Further behaviour of the host callback *)

Module CallbackBehaviour.
Import APU.

Section WithHost.
Variable scale : StereoSample.t -> StereoSample.t.
Variable to_int16 : Float.t -> Z.
Variable stale : StereoSample.t.

Local Abbreviation convert f := (store to_int16 (scale f)).

Lemma AudioCallback_drains (b : Buffer) (N : nat) :
  4 * Z.of_nat N <= INT_MAX ->
  (2 * N <= List.length b)%nat ->
  AudioCallback scale to_int16 stale b (4 * Z.of_nat N) =
    (map (fun f => convert f) (firstn N b), skipn N b).
Proof.
  intros HN HK. unfold AudioCallback.
  rewrite CallbackFacts.samples_of_byte_len by exact HN.
  rewrite Nat2Z.id, int32_small by (unfold INT_MAX in *; lia).
  unfold RingBuffer.Available.
  destruct (Z.leb_spec (2 * Z.of_nat N) (Z.of_nat (List.length b))); [|lia].
  apply CallbackFacts.drain_firstn. lia.
Qed.

Lemma firstn_add_split {A : Type} (n m : nat) (l : list A) :
  firstn (n + m) l = firstn n l ++ firstn m (skipn n l).
Proof.
  revert l. induction n as [| n IH]; intros l; [reflexivity|].
  destruct l as [| x l]; simpl; [now rewrite firstn_nil | now rewrite IH].
Qed.

(** X20.  A request for less than one frame, [byte_len] below 4 or
    negative, stores nothing and consumes nothing. *)
Theorem AudioCallback_short_request (b : Buffer) (byte_len : Z) :
  -2147483648 <= byte_len < 4 ->
  AudioCallback scale to_int16 stale b byte_len = ([], b).
Proof.
  intros H. unfold AudioCallback.
  set (samples := int32 (byte_len mod 2 ^ 64 / 2 / 2)).
  assert (Hs : -536870912 <= samples <= 0).
  { unfold samples. change (2 ^ 64) with 18446744073709551616.
    destruct (Z.neg_nonneg_cases byte_len) as [Neg | Pos].
    - assert (E1 : byte_len mod 18446744073709551616 =
                   byte_len + 18446744073709551616).
      { symmetry. apply (Z.mod_unique_pos _ _ (-1)); lia. }
      rewrite E1, Z.div_div by lia. change (2 * 2) with 4.
      replace (byte_len + 18446744073709551616)
        with (byte_len + 4611686018427387904 * 4) by lia.
      rewrite Z.div_add by lia.
      unfold int32.
      replace (byte_len / 4 + 4611686018427387904 + 2147483648)
        with (byte_len / 4 + 2147483648 + 1073741824 * 4294967296) by lia.
      assert (-536870912 <= byte_len / 4) by (apply Z.div_le_lower_bound; lia).
      assert (byte_len / 4 < 0) by (apply Z.div_lt_upper_bound; lia).
      rewrite Z.mod_add, Z.mod_small by lia. lia.
    - rewrite Z.mod_small, Z.div_div by lia. change (2 * 2) with 4.
      rewrite Z.div_small by lia. unfold int32. simpl. lia. }
  assert (Hd : int32 (2 * samples) = 2 * samples)
    by (apply int32_small; unfold INT_MAX; lia).
  rewrite Hd.
  pose proof (Nat2Z.is_nonneg (List.length b)) as Hb.
  unfold RingBuffer.Available.
  destruct (Z.leb_spec (2 * samples) (Z.of_nat (List.length b))); [|lia].
  replace (Z.to_nat samples) with 0%nat by lia. reflexivity.
Qed.

(** X21.  While the buffer holds enough, two requests in a row give what
    one request for both gives: with at least [2 (N + M)] frames held, a
    callback for [N] frames followed by one for [M] frames stores the same
    frames and leaves the same buffer as one callback for [N + M]. *)
Theorem AudioCallback_split (b : Buffer) (N M : nat) :
  4 * Z.of_nat (N + M) <= INT_MAX ->
  (2 * (N + M) <= List.length b)%nat ->
  let r1 := AudioCallback scale to_int16 stale b (4 * Z.of_nat N) in
  let r2 := AudioCallback scale to_int16 stale (snd r1) (4 * Z.of_nat M) in
  let r := AudioCallback scale to_int16 stale b (4 * Z.of_nat (N + M)) in
  fst r = fst r1 ++ fst r2 /\ snd r = snd r2.
Proof.
  intros HNM HK r1 r2 r.
  unfold r, r2, r1.
  rewrite (AudioCallback_drains b (N + M)) by assumption.
  rewrite (AudioCallback_drains b N) by lia.
  cbn [fst snd].
  rewrite AudioCallback_drains by (try rewrite length_skipn; lia).
  cbn [fst snd].
  rewrite firstn_add_split, map_app, skipn_skipn.
  split; [reflexivity | f_equal; lia].
Qed.
End WithHost.
End CallbackBehaviour.

Module MuteBehaviour.
Import NoiseChannel Reference Behaviour.

(** X22.  [Reset] silences the channel: the frequency and control
    registers read 0, and the first firing after it, whenever it comes,
    leaves sample 0, register 0 and the channel disabled. *)
Theorem Reset_is_silent (cycles_late : Z) (c : t) :
  let c' := Generate cycles_late (Reset c) in
  fst (Read 4 (Reset c)) = 0 /\
  fst (Read 5 (Reset c)) = 0 /\
  sample c' = 0 /\ lfsr c' = 0 /\ enabled c' = false.
Proof.
  intros c'.
  assert (G : silenced (Reset c) = false) by reflexivity.
  split; [reflexivity|]. split; [reflexivity|].
  unfold c'. split; [|split].
  - now rewrite (GenerateFacts.Generate_sample _ _ G).
  - rewrite (GenerateFacts.Generate_lfsr _ _ G). cbn [Reset lfsr skip_count width].
    rewrite ChannelFacts.skip_body_zero. apply ChannelFacts.skip_loop_zero.
  - rewrite ChannelFacts.Generate_enabled, G. reflexivity.
Qed.

(** X23.  Switching the DAC off is a hard mute: after a write to offset 1
    of a byte below 8 the channel is disabled and stays so through every
    call that is not another write to offset 1, a trigger included, and
    every firing leaves sample 0. *)
Theorem dac_off_mutes
    (Decrement value cycles_late : Z) (ks : list Calls.Call) (c : t) :
  0 <= value < 8 ->
  forallb keeps_dac ks = true ->
  let c' := Calls.run Decrement ks (Write Decrement 1 value c) in
  dac_enable c' = false /\
  enabled c' = false /\
  sample (Generate cycles_late c') = 0.
Proof.
  intros Hv Hks c'.
  assert (P : dac_enable c' = false /\ enabled c' = false).
  { apply (ChannelFacts.run_invariant Decrement
             (fun c => dac_enable c = false /\ enabled c = false) keeps_dac);
      [| exact Hks |].
    - clear. intros k c Hk [Hd He].
      destruct k as [| cl | offset | offset value]; cbn [Calls.call].
      + split; reflexivity.
      + rewrite ChannelFacts.Generate_enabled.
        destruct (GenerateFacts.Generate_frame cl c)
          as (_ & _ & _ & _ & _ & _ & Ed).
        rewrite Ed, He. split; [exact Hd | now destruct (silenced c)].
      + rewrite RegisterFacts.Read_state. now split.
      + destruct (RegisterFacts.Write_cases Decrement offset value c)
          as [-> | [-> | [-> | [-> | ->]]]]; try (now split);
          try discriminate.
        unfold Write. destruct (truthy (Z.land value 128));
          cbn [dac_enable enabled]; rewrite ?Hd; now split.
    - assert (E : Z.shiftr value 3 = 0).
      { rewrite Z.shiftr_div_pow2 by lia. apply Z.div_small.
        change (2 ^ 3) with 8. lia. }
      cbn [Write dac_enable enabled]. rewrite E. split; reflexivity. }
  destruct P as [Hd He]. split; [exact Hd|]. split; [exact He|].
  destruct (silenced c') eqn:G.
  - now rewrite (GenerateFacts.Generate_silenced _ _ G).
  - now rewrite (GenerateFacts.Generate_sample _ _ G), Hd.
Qed.
End MuteBehaviour.

(** ** The further statements at concrete inputs *)

Module Checks.
Import Examples Scenes Reference Behaviour.

Lemma Write_Read_frequency_witness :
  0 <= 0x9B < 256 /\
  fst (NoiseChannel.Read 4 (NoiseChannel.Write 0 4 0x9B channel0)) = 0x9B.
Proof.
  assert (R : 0 <= 0x9B < 256) by (split; [discriminate | reflexivity]).
  exact (conj R (ChannelBehaviour.Write_Read_frequency 0 0x9B channel0 R)).
Defined.

Lemma enabled_needs_dac_witness :
  (NoiseChannel.enabled muted0 = true -> NoiseChannel.dac_enable muted0 = true) /\
  NoiseChannel.enabled (Calls.run 0 triggered muted0) = true /\
  NoiseChannel.dac_enable (Calls.run 0 triggered muted0) = true.
Proof.
  assert (H : NoiseChannel.enabled muted0 = true ->
              NoiseChannel.dac_enable muted0 = true) by discriminate.
  exact (conj H (conj eq_refl
           (ChannelBehaviour.enabled_needs_dac 0 triggered muted0 H eq_refl))).
Defined.

Lemma zero_register_stays_witness :
  NoiseChannel.lfsr (NoiseChannel.Reset channel0) = 0 /\
  forallb no_trigger untriggered = true /\
  NoiseChannel.lfsr (Calls.run 0 untriggered (NoiseChannel.Reset channel0)) = 0.
Proof.
  exact (conj eq_refl (conj eq_refl
           (ChannelBehaviour.zero_register_stays 0 untriggered
              (NoiseChannel.Reset channel0) eq_refl eq_refl))).
Defined.

Lemma skip_body_zero_iff_witness :
  0 <= 1 <= 1 /\ 0 <= 0xC1 < 65536 /\ NoiseChannel.skip_body 1 0xC1 = 0.
Proof.
  assert (Hw : 0 <= 1 <= 1) by (split; discriminate).
  assert (Hl : 0 <= 0xC1 < 65536) by (split; [discriminate | reflexivity]).
  exact (conj Hw (conj Hl
           (proj2 (ChannelBehaviour.skip_body_zero_iff 1 0xC1 Hw Hl)
                  (or_intror eq_refl)))).
Defined.

Lemma triggered_register_never_zero_witness :
  NoiseChannel.wf channel0 = true /\
  0 <= 0x80 < 256 /\
  Z.testbit 0x80 7 = true /\
  forallb Calls.byte_args playing = true /\
  forallb keeps_width playing = true /\
  NoiseChannel.lfsr
    (Calls.run 0 playing (NoiseChannel.Write 0 5 0x80 channel0)) <> 0.
Proof.
  assert (R : 0 <= 0x80 < 256) by (split; [discriminate | reflexivity]).
  exact (conj eq_refl (conj R (conj eq_refl (conj eq_refl (conj eq_refl
           (proj1 (GeneratorBehaviour.triggered_register_never_zero
                     0 0x80 playing channel0 eq_refl R eq_refl eq_refl eq_refl))))))).
Defined.

Lemma trigger_sequence_period_witness :
  0 <= 1 <= 1 /\
  NoiseChannel.skip_loop (Z.to_nat (bound 1 - 1)) 1
                         (nth (Z.to_nat 1) NoiseChannel.lfsr_init 0) =
    nth (Z.to_nat 1) NoiseChannel.lfsr_init 0.
Proof.
  assert (Hw : 0 <= 1 <= 1) by (split; discriminate).
  exact (conj Hw (proj1 (GeneratorBehaviour.trigger_sequence_period 1 Hw))).
Defined.

Lemma Generate_rate_matching_witness :
  NoiseChannel.wf channel0 = true /\
  0 <= 3 <= INT_MAX /\
  silenced channel0 = false /\
  exists d : Z,
    NoiseChannel.scheduler (NoiseChannel.Generate 3 channel0) =
      [ {| Scheduler.delay := d; Scheduler.callback := Scheduler.event_cb |} ] /\
    d + 3 = 512.
Proof.
  assert (R : 0 <= 3 <= INT_MAX) by (split; discriminate).
  destruct (GeneratorBehaviour.Generate_rate_matching channel0 3 eq_refl R eq_refl)
    as (d & Hs & Hd & _).
  exact (conj eq_refl (conj R (conj eq_refl
           (ex_intro _ d (conj Hs Hd))))).
Defined.

Lemma Generate_sample_int8_witness :
  NoiseChannel.wf channel0 = true /\
  APU.int8 (NoiseChannel.sample (NoiseChannel.Generate 0 channel0)) = true.
Proof.
  exact (conj eq_refl
           (proj2 (GeneratorBehaviour.Generate_sample_int8 channel0 0 eq_refl))).
Defined.

Lemma LatchFIFO_latches_witness :
  0 <= 0 <= 1 /\ 1 <= 2 /\
  List.length (APU.latch apu0) = 2%nat /\
  List.length (Latch.fifo bus0) = 2%nat /\
  nth 0 (APU.latch (fst (Latch.LatchFIFO 0 0 2 apu0 bus0))) 0 = -3 /\
  nth 0 (Latch.fifo (snd (Latch.LatchFIFO 0 0 2 apu0 bus0))) [] = [7].
Proof.
  assert (Hid : 0 <= 0 <= 1) by (split; discriminate).
  assert (Ht : 1 <= 2) by discriminate.
  destruct (MixerBehaviour.LatchFIFO_latches 0 0 2 apu0 bus0 Hid Ht eq_refl eq_refl)
    as (Hl & _ & Hf & _).
  exact (conj Hid (conj Ht (conj eq_refl (conj eq_refl (conj Hl Hf))))).
Defined.

Lemma LatchFIFO_requests_witness :
  1 <= 1 /\
  Latch.dma (snd (Latch.LatchFIFO 0 1 1 apu0 bus0)) = [DMA.FIFO1] /\
  Latch.dma (snd (Latch.LatchFIFO 0 1 1 apu0 bus0)) <> Latch.dma bus0.
Proof.
  assert (Ht : 1 <= 1) by discriminate.
  destruct (MixerBehaviour.LatchFIFO_requests 0 1 1 apu0 bus0 Ht)
    as (He & _ & Hn).
  assert (Hfew : FIFO.Count (nth (Z.to_nat 1) (Latch.fifo bus0) []) - 1 <= 16)
    by discriminate.
  exact (conj Ht (conj He (Hn Hfew))).
Defined.

Lemma LatchFIFO_additive_witness :
  (Z.to_nat 0 < List.length (Latch.fifo bus0))%nat /\
  0 <= 1 /\ 0 <= 2 /\
  Latch.LatchFIFO 0 0 (1 + 2) apu0 bus0 =
    Latch.LatchFIFO 0 0 2 (fst (Latch.LatchFIFO 0 0 1 apu0 bus0))
                          (snd (Latch.LatchFIFO 0 0 1 apu0 bus0)).
Proof.
  assert (Hid : (Z.to_nat 0 < List.length (Latch.fifo bus0))%nat)
    by (apply Nat.ltb_lt; reflexivity).
  assert (H1 : 0 <= 1) by discriminate.
  assert (H2 : 0 <= 2) by discriminate.
  exact (conj Hid (conj H1 (conj H2
           (proj2 (MixerBehaviour.LatchFIFO_additive 0 0 1 2 apu0 bus0 Hid H1 H2))))).
Defined.

Lemma LatchFIFO_then_Tick_witness :
  APU.wf apu0 = true /\
  0 <= 0 <= 1 /\
  nth (Z.to_nat 0) (Latch.fifo bus0) [] = 10 :: [-3; 7] /\
  APU.int8 10 = true /\
  exists frame : StereoSample.t,
    Resampler.written
      (APU.resampler (APU.Tick (fst (Latch.LatchFIFO 0 0 1 apu0 bus0)))) =
      [frame] /\
    Float.denotes (StereoSample.left frame)
                  (inject_Z 10 / 256 + inject_Z (40 + 0 + 0) / 512)%Q.
Proof.
  assert (Hid : 0 <= 0 <= 1) by (split; discriminate).
  destruct (MixerBehaviour.LatchFIFO_then_Tick 0 0 10 [-3; 7] apu0 bus0
              eq_refl Hid eq_refl eq_refl) as (_ & frame & Hw & Hd).
  exact (conj eq_refl (conj Hid (conj eq_refl (conj eq_refl
           (ex_intro _ frame (conj Hw Hd)))))).
Defined.

Lemma Tick_tracks_resolution_witness :
  (APU.resolution_old apu0 = BIAS.resolution (APU.bias apu0) /\
   Resampler.input_rate (APU.resampler (APU.Tick apu0)) = 32768) /\
  (APU.resolution_old apu1 <> BIAS.resolution (APU.bias apu1) /\
   Resampler.input_rate (APU.resampler (APU.Tick apu1)) = 65536 /\
   APU.resolution_old (APU.Tick apu1) = 1).
Proof.
  destruct (MixerBehaviour.Tick_tracks_resolution apu0) as (_ & Hsame & _).
  destruct (MixerBehaviour.Tick_tracks_resolution apu1) as (Hold & _ & Hdiff & _).
  assert (N : APU.resolution_old apu1 <> BIAS.resolution (APU.bias apu1))
    by discriminate.
  exact (conj (conj eq_refl (proj1 (Hsame eq_refl)))
              (conj N (conj (proj1 (Hdiff N)) Hold))).
Defined.

Lemma Tick_frame_bounds_witness :
  APU.wf apu1 = true /\
  exists frame : StereoSample.t,
    Resampler.written (APU.resampler (APU.Tick apu1)) = [frame] /\
    Float.is_finite (StereoSample.left frame) = true /\
    (Float.to_Q (StereoSample.left frame) <= 5 # 4)%Q.
Proof.
  destruct (MixerBehaviour.Tick_frame_bounds apu1 eq_refl)
    as (frame & Hw & Hf & _ & [_ Hq] & _).
  exact (conj eq_refl (ex_intro _ frame (conj Hw (conj Hf Hq)))).
Defined.

Lemma AudioCallback_short_request_witness :
  -2147483648 <= 3 < 4 /\
  -2147483648 <= -8 < 4 /\
  APU.AudioCallback unscaled sign16 quiet [loud] 3 = ([], [loud]) /\
  APU.AudioCallback unscaled sign16 quiet [loud] (-8) = ([], [loud]).
Proof.
  assert (R3 : -2147483648 <= 3 < 4) by (split; [discriminate | reflexivity]).
  assert (R8 : -2147483648 <= -8 < 4) by (split; [discriminate | reflexivity]).
  exact (conj R3 (conj R8 (conj
           (CallbackBehaviour.AudioCallback_short_request
              unscaled sign16 quiet [loud] 3 R3)
           (CallbackBehaviour.AudioCallback_short_request
              unscaled sign16 quiet [loud] (-8) R8)))).
Defined.

Lemma AudioCallback_split_witness :
  let b := [loud; quiet; quiet; loud; loud] in
  4 * Z.of_nat (1 + 1) <= INT_MAX /\
  (2 * (1 + 1) <= List.length b)%nat /\
  fst (APU.AudioCallback unscaled sign16 quiet b (4 * Z.of_nat (1 + 1))) =
    fst (APU.AudioCallback unscaled sign16 quiet b (4 * Z.of_nat 1)) ++
    fst (APU.AudioCallback unscaled sign16 quiet
           (snd (APU.AudioCallback unscaled sign16 quiet b (4 * Z.of_nat 1)))
           (4 * Z.of_nat 1)).
Proof.
  intros b.
  assert (R : 4 * Z.of_nat (1 + 1) <= INT_MAX) by discriminate.
  assert (K : (2 * (1 + 1) <= List.length b)%nat)
    by (apply Nat.leb_le; reflexivity).
  exact (conj R (conj K
           (proj1 (CallbackBehaviour.AudioCallback_split
                     unscaled sign16 quiet b 1 1 R K)))).
Defined.

Lemma dac_off_mutes_witness :
  0 <= 5 < 8 /\
  forallb keeps_dac retrigger = true /\
  NoiseChannel.enabled
    (Calls.run 0 retrigger (NoiseChannel.Write 0 1 5 channel0)) = false /\
  NoiseChannel.sample
    (NoiseChannel.Generate 0
       (Calls.run 0 retrigger (NoiseChannel.Write 0 1 5 channel0))) = 0.
Proof.
  assert (R : 0 <= 5 < 8) by (split; [discriminate | reflexivity]).
  destruct (MuteBehaviour.dac_off_mutes 0 5 0 retrigger channel0 R eq_refl)
    as (_ & He & Hs).
  exact (conj R (conj eq_refl (conj He Hs))).
Defined.
End Checks.
